(** * ZyTemp: the frame protocol of the USB CO2 / temperature monitor

    A shallow embedding of [zytempmqtt/ZyTemp.py]: the byte transform
    [decrypt], the frame checks and the measurement table used by
    [ZyTemp.run], the snapshot cache [ZyTemp.update], and the session loop
    with its calibration counter and its calls on the device handle and on
    the MQTT collaborator.

    Python integers are [Z] (bit operations are [Z.land], [Z.lor],
    [Z.lxor], [Z.shiftl], [Z.shiftr]); Python floats are the binary64
    numbers of [PrimFloat]; Python lists are [list] with stdpp's lookup and
    insert, index errors written out as [None]; the [values] dictionary is a
    [gmap] with string keys. *)

From Stdlib Require Import ZArith QArith Qabs Lqa Floats Uint63.
From stdpp Require Import gmap strings list fin_maps.

#[local] Open Scope Z_scope.

(** ** Python list access *)

Module PyList.

(** [l[i]] for an index [i >= 0]: [None] stands for [IndexError]. *)
Definition get (l : list Z) (i : nat) : option Z := l !! i.

(** [l[i] = x] for an index [i >= 0]: [None] stands for [IndexError]. *)
Definition set (l : list Z) (i : nat) (x : Z) : option (list Z) :=
  if (i <? length l)%nat then Some (<[i:=x]> l) else None.

(** [for i in idxs: s = body(i, s)], stopping at the first exception. *)
Fixpoint for_each {S : Type} (idxs : list nat)
    (body : nat -> S -> option S) (s : S) : option S :=
  match idxs with
  | [] => Some s
  | i :: rest =>
      match body i s with
      | Some s' => for_each rest body s'
      | None => None
      end
  end.

(** [enumerate(l)] *)
Definition enumerate {A : Type} (l : list A) : list (nat * A) :=
  zip (seq 0 (length l)) l.

(** [range(n)] *)
Definition range (n : nat) : list nat := seq 0 n.

(** [[0] * n] *)
Definition zeros (n : nat) : list Z := replicate n 0.

End PyList.

(** ** The byte transform: [decrypt] *)

(** [KEY = [0xc4, 0xc6, 0xc0, 0x92, 0x40, 0x23, 0xdc, 0x96]] *)
Definition KEY : list Z := [0xc4; 0xc6; 0xc0; 0x92; 0x40; 0x23; 0xdc; 0x96].

Module Decrypt.
Import PyList.

Definition cstate : list Z := [0x48; 0x74; 0x65; 0x6D; 0x70; 0x39; 0x39; 0x65].
Definition shuffle : list nat := [2; 4; 0; 7; 1; 6; 5; 3]%nat.

(** [for i, o in enumerate(shuffle): phase1[o] = data[i]] *)
Fixpoint phase1_loop (data : list Z) (ios : list (nat * nat))
    (phase1 : list Z) : option (list Z) :=
  match ios with
  | [] => Some phase1
  | (i, o) :: rest =>
      match get data i with
      | Some x =>
          match set phase1 o x with
          | Some phase1' => phase1_loop data rest phase1'
          | None => None
          end
      | None => None
      end
  end.

(** [phase2[i] = phase1[i] ^ key[i]] *)
Definition phase2_body (key phase1 : list Z) (i : nat) (phase2 : list Z)
    : option (list Z) :=
  match get phase1 i, get key i with
  | Some a, Some k => set phase2 i (Z.lxor a k)
  | _, _ => None
  end.

(** The index [(i-1+8)%8], computed on integers as Python does. *)
Definition prev_index (i : nat) : nat :=
  Z.to_nat ((Z.of_nat i - 1 + 8) mod 8).

(** [phase3[i] = ((phase2[i] >> 3) | (phase2[(i-1+8)%8] << 5)) & 0xff] *)
Definition phase3_body (phase2 : list Z) (i : nat) (phase3 : list Z)
    : option (list Z) :=
  match get phase2 i, get phase2 (prev_index i) with
  | Some a, Some b =>
      set phase3 i (Z.land (Z.lor (Z.shiftr a 3) (Z.shiftl b 5)) 0xff)
  | _, _ => None
  end.

(** [ctmp[i] = ((cstate[i] >> 4) | (cstate[i] << 4)) & 0xff] *)
Definition ctmp_body (i : nat) (ctmp : list Z) : option (list Z) :=
  match get cstate i with
  | Some c => set ctmp i (Z.land (Z.lor (Z.shiftr c 4) (Z.shiftl c 4)) 0xff)
  | None => None
  end.

(** [out[i] = (0x100 + phase3[i] - ctmp[i]) & 0xff] *)
Definition out_body (phase3 ctmp : list Z) (i : nat) (out : list Z)
    : option (list Z) :=
  match get phase3 i, get ctmp i with
  | Some p, Some c => set out i (Z.land (0x100 + p - c) 0xff)
  | _, _ => None
  end.

(** [decrypt(key, data)]; [None] when an index is out of range. *)
Definition decrypt (key data : list Z) : option (list Z) :=
  match phase1_loop data (enumerate shuffle) (zeros 8) with
  | Some phase1 =>
      match for_each (range 8) (phase2_body key phase1) (zeros 8) with
      | Some phase2 =>
          match for_each (range 8) (phase3_body phase2) (zeros 8) with
          | Some phase3 =>
              match for_each (range 8) ctmp_body (zeros 8) with
              | Some ctmp =>
                  for_each (range 8) (out_body phase3 ctmp) (zeros 8)
              | None => None
              end
          | None => None
          end
      | None => None
      end
  | None => None
  end.

End Decrypt.

(** ** The five stages as the specification words them *)

Module TransformSpec.

(** Element [i] of a block, [0] outside it. *)
Definition at_ (l : list Z) (i : nat) : Z := default 0 (l !! i).

(** The position [i] with [shuffle[i] = j]. *)
Fixpoint source_of (j : nat) (sh : list nat) (i : nat) : nat :=
  match sh with
  | [] => i
  | o :: rest => if (o =? j)%nat then i else source_of j rest (S i)
  end.

(** Stage 1: output position [shuffle[i]] receives [input[i]]. *)
Definition stage1 (input : list Z) : list Z :=
  map (fun j => at_ input (source_of j Decrypt.shuffle 0)) (seq 0 8).

(** Stage 2: byte-wise XOR with the key. *)
Definition stage2 (key s1 : list Z) : list Z :=
  map (fun i => Z.lxor (at_ s1 i) (at_ key i)) (seq 0 8).

(** Stage 3: [((stage2[i] >> 3) | (stage2[(i-1+8) mod 8] << 5)) & 0xFF],
    every element read from the complete stage-2 array. *)
Definition stage3 (s2 : list Z) : list Z :=
  map (fun i =>
         Z.land (Z.lor (Z.shiftr (at_ s2 i) 3)
                       (Z.shiftl (at_ s2 (Z.to_nat ((Z.of_nat i - 1 + 8) mod 8))) 5))
                0xFF)
      (seq 0 8).

(** Stage 4: nibble swap of the fixed constant. *)
Definition nibble_swap (c : Z) : Z :=
  Z.land (Z.lor (Z.shiftr c 4) (Z.shiftl c 4)) 0xFF.

Definition swapped : list Z :=
  map nibble_swap [0x48; 0x74; 0x65; 0x6D; 0x70; 0x39; 0x39; 0x65].

(** Stage 5: [(0x100 + stage3[i] - swapped[i]) & 0xFF]. *)
Definition stage5 (s3 : list Z) : list Z :=
  map (fun i => Z.land (0x100 + at_ s3 i - at_ swapped i) 0xFF) (seq 0 8).

Definition transform (key input : list Z) : list Z :=
  stage5 (stage3 (stage2 key (stage1 input))).

End TransformSpec.

(** A byte is an integer in [0..255]; a block is 8 of them. *)
Definition is_byte (x : Z) : Prop := 0 <= x < 256.
Definition is_block (l : list Z) : Prop := length l = 8%nat /\ Forall is_byte l.

(** ** Python values held by the cache *)

Module PyVal.

(** [None], an [int] or a [float] (binary64). *)
Inductive pyval : Type :=
| PyNone
| PyInt (z : Z)
| PyFloat (f : float).

(** [v is None] *)
Definition is_none (v : pyval) : bool :=
  match v with PyNone => true | _ => false end.

(** [float(x)] for an integer with [|x| < 2^63]. *)
Definition float_of_int (x : Z) : float :=
  if x <? 0 then PrimFloat.opp (PrimFloat.of_uint63 (Uint63.of_Z (- x)))
  else PrimFloat.of_uint63 (Uint63.of_Z x).

(** Python compares an [int] with a [float] by their exact values. *)
Definition float_eq_int (f : float) (z : Z) : bool :=
  match Prim2SF f with
  | S754_zero _ => z =? 0
  | S754_finite s m e =>
      let v := if s then Z.neg m else Z.pos m in
      if 0 <=? e then z =? v * 2 ^ e else z * 2 ^ (- e) =? v
  | _ => false
  end.

(** [a == b] *)
Definition py_eq (a b : pyval) : bool :=
  match a, b with
  | PyNone, PyNone => true
  | PyInt x, PyInt y => x =? y
  | PyFloat x, PyFloat y => PrimFloat.eqb x y
  | PyInt x, PyFloat y => float_eq_int y x
  | PyFloat x, PyInt y => float_eq_int x y
  | _, _ => false
  end.

End PyVal.
Export PyVal.

(** ** The measurement table *)

(** [IGNORE_N_MEASUREMENTS = 5] *)
Definition IGNORE_N_MEASUREMENTS : Z := 5.

Record measurement : Type := {
  name : string;
  unit : string;
  conversion : Z -> pyval;
  ha_device_class : string;
  ha_icon : string;
}.

#[local] Set Warnings "-inexact-float".

(** [lambda x: x / 16 - 273.15]: true division of integers, then a binary64
    subtraction of the literal. *)
Definition temperature_conversion (x : Z) : pyval :=
  PyFloat (float_of_int x / 16 - 273.15)%float.

(** [lambda x: x] *)
Definition co2_conversion (x : Z) : pyval := PyInt x.

#[local] Open Scope string_scope.

(** [ZyTemp.MEASUREMENTS], in the order of the dictionary literal. *)
Definition MEASUREMENTS : list (Z * measurement) :=
  [ (0x42, {| name := "Temperature";
              unit := "°C";
              conversion := temperature_conversion;
              ha_device_class := "temperature";
              ha_icon := "mdi:thermometer" |});
    (0x50, {| name := "CO2";
              unit := "ppm";
              conversion := co2_conversion;
              ha_device_class := "carbon_dioxide";
              ha_icon := "mdi:molecule-co2" |}) ].

#[local] Close Scope string_scope.

(** [ZyTemp.MEASUREMENTS[m_type]]: [None] stands for [KeyError]. *)
Fixpoint table_lookup (table : list (Z * measurement)) (m_type : Z)
    : option measurement :=
  match table with
  | [] => None
  | (tag, m) :: rest => if tag =? m_type then Some m else table_lookup rest m_type
  end.

(** ** The session object and what it does to its collaborators *)

(** The three settings of [ConfigFile] that [ZyTemp] reads; the class itself
    lives in [zytempmqtt/config.py] and is taken as given. *)
Record ConfigFile : Type := {
  discovery_prefix : string;
  mqtt_topic : string;
  friendly_name : string;
}.

Inductive level : Type := DEBUG | INFO | ERROR.

(** The messages of [l.log], by the place that writes them. *)
Inductive message : Type :=
| MsgOSError
| MsgReadError
| MsgEncrypted
| MsgChecksumError
| MsgUnknownKey (m_type : Z)
| MsgReading (m_name : string) (m_reading : pyval) (m_unit : string)
             (ignore : bool).

(** The calls on the logger, on the HID handle [self.h] and on the MQTT
    client [self.m], in the order they are made. [MqttPublish] records the
    contents of [self.values] at the time of the call. *)
Inductive event : Type :=
| Log (lv : level) (msg : message)
| HidSendFeatureReport (data : list Z)
| HidClose
| MqttPublish (topic : string) (payload : gmap string pyval)
| MqttPublishDiscovery (m_name : string)
| MqttRun.

(** The fields of a [ZyTemp] object that change or are read in [run]. *)
Record ZyTemp : Type := {
  cfg : ConfigFile;
  measurements_to_ignore : Z;
  values : gmap string pyval;
}.

Definition set_values (self : ZyTemp) (d : gmap string pyval) : ZyTemp :=
  {| cfg := cfg self;
     measurements_to_ignore := measurements_to_ignore self;
     values := d |}.

Definition set_measurements_to_ignore (self : ZyTemp) (n : Z) : ZyTemp :=
  {| cfg := cfg self; measurements_to_ignore := n; values := values self |}.

(** [ZyTemp.__init__]: the feature report carries the bytes of the key;
    [values] maps every measurement name to [None]. *)
Definition init (c : ConfigFile) : ZyTemp * list event :=
  ({| cfg := c;
      measurements_to_ignore := IGNORE_N_MEASUREMENTS;
      values := foldl (fun d v => <[name v.2 := PyNone]> d) ∅ MEASUREMENTS |},
   [HidSendFeatureReport [0xc4; 0xc6; 0xc0; 0x92; 0x40; 0x23; 0xdc; 0x96]]).

(** [ZyTemp.__del__] *)
Definition del (self : ZyTemp) : list event := [HidClose].

(** [ZyTemp.discovery]: nothing when the prefix is empty, otherwise one
    retained document per measurement and one call of [self.m.run(0.1)]. The
    document is abridged to the measurement's name. *)
Definition discovery (self : ZyTemp) : list event :=
  if (String.length (discovery_prefix (cfg self)) =? 0)%nat then []
  else map (fun v => MqttPublishDiscovery (name v.2)) MEASUREMENTS ++ [MqttRun].

(** [any(v is None for v in d.values())] *)
Definition any_none (d : gmap string pyval) : bool :=
  existsb is_none (map_to_list d).*2.

(** [ZyTemp.update(key, value)]: [None] stands for the [KeyError] of
    [self.values[key]] on a name the cache does not hold. *)
Definition update (self : ZyTemp) (key : string) (value : pyval)
    : option (ZyTemp * list event) :=
  match values self !! key with
  | None => None
  | Some old =>
      if py_eq old value then Some (self, [])
      else
        let self' := set_values self (<[key:=value]> (values self)) in
        if any_none (values self') then Some (self', [])
        else Some (self', [MqttPublish (mqtt_topic (cfg self')) (values self')])
  end.

(** One call of [self.h.read(8)]: an [OSError], or the bytes read. *)
Inductive read_result : Type :=
| ReadOSError
| ReadData (r : list Z).

Inductive exn : Type := IndexError | KeyError.

(** How one pass through the body of [while True] ends. *)
Inductive control : Type :=
| Continue
| Return
| Raise (e : exn).

(** [sum(r[0:3]) & 0xff] *)
Definition checksum (r : list Z) : Z :=
  Z.land (foldl Z.add 0 (take 3 r)) 0xff.

(** Lines 131-141 of [run]: the calibration counter decides whether the
    reading reaches [update]; [self.m.run(0.1)] follows, and a CO2 reading
    then counts the counter down. [ev] holds the calls made so far in this
    pass of the loop. *)
Definition gate (self : ZyTemp) (ev : list event)
    (m_name m_unit : string) (m_reading : pyval)
    : ZyTemp * list event * control :=
  let ignore := 0 <? measurements_to_ignore self in
  let ev := ev ++ [Log DEBUG (MsgReading m_name m_reading m_unit ignore)] in
  match (if negb ignore then update self m_name m_reading
         else Some (self, [])) with
  | None => (self, ev, Raise KeyError)
  | Some (self, ev_update) =>
      let ev := ev ++ ev_update ++ [MqttRun] in
      if String.eqb m_name "CO2"%string
         && negb (measurements_to_ignore self =? 0)
      then (set_measurements_to_ignore self (measurements_to_ignore self - 1),
            ev, Continue)
      else (self, ev, Continue)
  end.

(** Lines 119-129 of [run]: the type tag and the 16-bit value of a frame, the
    table entry of the tag, and the reading. *)
Definition handle_measurement (self : ZyTemp) (ev : list event) (r : list Z)
    : ZyTemp * list event * control :=
  match PyList.get r 0, PyList.get r 1, PyList.get r 2 with
  | Some m_type, Some r1, Some r2 =>
      let m_val := Z.lor (Z.shiftl r1 8) r2 in
      match table_lookup MEASUREMENTS m_type with
      | None => (self, ev ++ [Log DEBUG (MsgUnknownKey m_type)], Continue)
      | Some m => gate self ev (name m) (unit m) (conversion m m_val)
      end
  | _, _, _ => (self, ev, Raise IndexError)
  end.

(** Lines 115-117 of [run]: the checksum of the frame [r] that line 113
    leaves. *)
Definition process_frame (self : ZyTemp) (ev : list event) (r : list Z)
    : ZyTemp * list event * control :=
  match PyList.get r 3 with
  | None => (self, ev, Raise IndexError)
  | Some r3 =>
      if negb (r3 =? checksum r) then
        (self, ev ++ [Log ERROR MsgChecksumError], Continue)
      else handle_measurement self ev r
  end.

(** Lines 100-113 of [run], and through [process_frame] the rest of one pass
    through the body of [while True], given what [self.h.read(8)] does. *)
Definition run_iteration (self : ZyTemp) (rd : read_result)
    : ZyTemp * list event * control :=
  match rd with
  | ReadOSError => (self, [Log ERROR MsgOSError], Return)
  | ReadData r =>
      match r with
      | [] => (self, [Log ERROR MsgReadError; HidClose], Return)
      | _ =>
          match PyList.get r 4 with
          | None => (self, [], Raise IndexError)
          | Some r4 =>
              if negb (r4 =? 0x0d) then
                match Decrypt.decrypt KEY r with
                | Some r' => process_frame self [Log DEBUG MsgEncrypted] r'
                | None => (self, [Log DEBUG MsgEncrypted], Raise IndexError)
                end
              else process_frame self [] r
          end
      end
  end.

(** How far [run] got on a given sequence of reads: still blocked in
    [self.h.read(8)] once they are used up, returned, or left by an
    exception. *)
Inductive status : Type :=
| Blocked
| Returned
| Raised (e : exn).

(** The [while True] loop of [run] against the successive results of
    [self.h.read(8)]. *)
Fixpoint run_loop (self : ZyTemp) (reads : list read_result)
    : ZyTemp * list event * status :=
  match reads with
  | [] => (self, [], Blocked)
  | rd :: rest =>
      match run_iteration self rd with
      | (self', ev, Continue) =>
          match run_loop self' rest with
          | (self'', ev', st) => (self'', ev ++ ev', st)
          end
      | (self', ev, Return) => (self', ev, Returned)
      | (self', ev, Raise e) => (self', ev, Raised e)
      end
  end.

(** [ZyTemp.run] *)
Definition run (self : ZyTemp) (reads : list read_result)
    : ZyTemp * list event * status :=
  match run_loop self reads with
  | (self', ev, st) => (self', discovery self ++ ev, st)
  end.

(** A whole session: construction, [run], and the destructor once the object
    is dropped. *)
Definition session (c : ConfigFile) (reads : list read_result) : list event :=
  match init c with
  | (self, ev0) =>
      match run self reads with
      | (self', ev, _) => ev0 ++ ev ++ del self'
      end
  end.

Definition is_close (e : event) : bool :=
  match e with HidClose => true | _ => false end.
Definition is_pump (e : event) : bool :=
  match e with MqttRun => true | _ => false end.
Definition is_publish (e : event) : bool :=
  match e with MqttPublish _ _ => true | _ => false end.

(** How often an event of a kind occurs in a trace. *)
Definition count (p : event -> bool) (ev : list event) : nat :=
  length (filter (fun e => p e = true) ev).

(** ** The frame validator and the decoder as the specification words them *)

Module FrameSpec.
Import TransformSpec.

Inductive validated : Type :=
| Accepted (frame : list Z)
| ChecksumError.

(** Step 1: the raw bytes when [raw[4] == 0x0d], otherwise their transform
    under the fixed key. *)
Definition candidate (raw : list Z) : list Z :=
  if at_ raw 4 =? 0x0d then raw else transform KEY raw.

(** Step 2: [candidate[3] == (candidate[0] + candidate[1] + candidate[2]) & 0xFF]. *)
Definition checksum_holds (c : list Z) : bool :=
  at_ c 3 =? Z.land (at_ c 0 + at_ c 1 + at_ c 2) 0xFF.

Definition validate (raw : list Z) : validated :=
  if checksum_holds (candidate raw) then Accepted (candidate raw)
  else ChecksumError.

(** The two measurement kinds and their tags. *)
Inductive kind : Type := Temperature | CO2.

Definition kind_of_tag (tag : Z) : option kind :=
  if tag =? 0x42 then Some Temperature
  else if tag =? 0x50 then Some CO2
  else None.

Definition kind_name (k : kind) : string :=
  match k with Temperature => "Temperature" | CO2 => "CO2" end.

Definition kind_unit (k : kind) : string :=
  match k with Temperature => "°C" | CO2 => "ppm" end.

(** The big-endian 16-bit value of bytes 1 and 2. *)
Definition raw_value (frame : list Z) : Z := 256 * at_ frame 1 + at_ frame 2.

(** Temperature: [v/16 - 273.15] in binary64; CO2: [v] unchanged. *)
Definition convert (k : kind) (v : Z) : pyval :=
  match k with
  | Temperature => PyFloat (float_of_int v / 16 - 273.15)%float
  | CO2 => PyInt v
  end.

(** The log line written when the transform was applied. *)
Definition transform_log (raw : list Z) : list event :=
  if at_ raw 4 =? 0x0d then [] else [Log DEBUG MsgEncrypted].

(** The kind of the reading a raw frame carries, if it is accepted and its
    tag is known. *)
Definition decoded_kind (raw : list Z) : option kind :=
  match validate raw with
  | Accepted frame => kind_of_tag (at_ frame 0)
  | ChecksumError => None
  end.

Definition is_co2 (raw : list Z) : bool :=
  match decoded_kind raw with Some CO2 => true | _ => false end.

Definition is_decoded (raw : list Z) : bool :=
  match decoded_kind raw with Some _ => true | None => false end.

(** How many of the frames carry a CO2 reading, and a reading at all. *)
Definition co2_readings (frames : list (list Z)) : nat :=
  length (List.filter is_co2 frames).

Definition decoded_readings (frames : list (list Z)) : nat :=
  length (List.filter is_decoded frames).

End FrameSpec.

(** ** The inverse of the byte transform

    Not in the source: the function that undoes [decrypt], by which the
    transform is shown to lose nothing. *)

Module Inverse.
Import TransformSpec.

(** A byte added back, modulo 256. *)
Definition add8 (o c : Z) : Z := Z.land (o + c) 0xFF.

(** The byte whose high five bits are the low five of [p] and whose low
    three bits are the high three of [q]. *)
Definition unrot3 (p q : Z) : Z :=
  Z.lor (Z.land (Z.shiftl p 3) 0xFF) (Z.shiftr q 5).

Definition encrypt (key out : list Z) : list Z :=
  let p3 := map (fun i => add8 (at_ out i) (at_ swapped i)) (seq 0 8) in
  let p2 := map (fun i => unrot3 (at_ p3 i) (at_ p3 ((i + 1) mod 8)%nat))
                (seq 0 8) in
  let p1 := map (fun i => Z.lxor (at_ p2 i) (at_ key i)) (seq 0 8) in
  map (fun i => at_ p1 (default 0%nat (Decrypt.shuffle !! i))) (seq 0 8).

End Inverse.

(** Stage 3 for one position: the byte [a] at the position and its cyclic
    left neighbour [b]. *)
Definition rot3 (a b : Z) : Z :=
  Z.land (Z.lor (Z.shiftr a 3) (Z.shiftl b 5)) 0xFF.

(** Stage 5 for one position. *)
Definition sub8 (p c : Z) : Z := Z.land (0x100 + p - c) 0xFF.

(** ** What holds of a session object throughout a session *)

(** The names of the two measurements. *)
Definition names : gset string := {[ "Temperature"%string; "CO2"%string ]}.

(** A snapshot is complete when no entry is [None]. *)
Definition complete (d : gmap string pyval) : Prop :=
  forall k v, d !! k = Some v -> v <> PyNone.

(** The counter is not negative and the cache holds exactly the two names. *)
Definition well_formed (self : ZyTemp) : Prop :=
  0 <= measurements_to_ignore self /\ dom (values self) = names.

(** ** Binary64 numbers as rationals *)

(** The rational a finite binary64 number stands for (zero for the
    infinities and NaN, which the conversions never produce). *)
Definition float_to_Q (f : float) : Q :=
  match Prim2SF f with
  | S754_finite s m e =>
      let v := if s then Z.neg m else Z.pos m in
      if 0 <=? e then inject_Z (v * 2 ^ e) else Qmake v (Z.to_pos (2 ^ (- e)))
  | _ => 0%Q
  end.

(** [v/16 - 273.15] over the rationals. *)
Definition exact_temperature (v : Z) : Q := ((v # 16) - (27315 # 100))%Q.

(** The reading is a float within [2^-42] of the exact value. *)
Definition temperature_close (v : Z) : bool :=
  match temperature_conversion v with
  | PyFloat f => Qle_bool (Qabs (float_to_Q f - exact_temperature v)) (1 # 2 ^ 42)
  | _ => false
  end.

(** The 256 bytes, for properties checked byte by byte. *)
Definition all_bytes : list Z := map Z.of_nat (seq 0 256).
Definition for_all_bytes (p : Z -> bool) : bool := forallb p all_bytes.
Definition for_all_bytes2 (p : Z -> Z -> bool) : bool :=
  for_all_bytes (fun a => for_all_bytes (p a)).

(** ** One pass of the loop in the words of the specification *)

(** What lines 111-129 come to on a frame of 8 bytes, in the words of the
    validator and the decoder; the reading then goes through [gate]. *)
Definition iteration_on_frame (self : ZyTemp) (raw : list Z)
    : ZyTemp * list event * control :=
  match FrameSpec.validate raw with
  | FrameSpec.ChecksumError =>
      (self, FrameSpec.transform_log raw ++ [Log ERROR MsgChecksumError], Continue)
  | FrameSpec.Accepted frame =>
      match FrameSpec.kind_of_tag (TransformSpec.at_ frame 0) with
      | None =>
          (self,
           FrameSpec.transform_log raw
             ++ [Log DEBUG (MsgUnknownKey (TransformSpec.at_ frame 0))],
           Continue)
      | Some k =>
          gate self (FrameSpec.transform_log raw)
               (FrameSpec.kind_name k) (FrameSpec.kind_unit k)
               (FrameSpec.convert k
                  (Z.lor (Z.shiftl (TransformSpec.at_ frame 1) 8)
                         (TransformSpec.at_ frame 2)))
      end
  end.

(** The calls that only write to the log. *)
Definition is_log (e : event) : Prop := exists lv msg, e = Log lv msg.

(** ** Sample frames *)

Module Sample.

Definition config : ConfigFile :=
  {| discovery_prefix := "homeassistant";
     mqtt_topic := "sensors/co2";
     friendly_name := "CO2 monitor" |}.

(** A fresh session object. *)
Definition fresh : ZyTemp := (init config).1.

(** Temperature, raw value 0x1194, sent in plain text. *)
Definition temperature : list Z := [0x42; 0x11; 0x94; 0xe7; 0x0d; 0; 0; 0].

(** The same frame as the device obfuscates it. *)
Definition temperature_encrypted : list Z :=
  [149; 228; 246; 32; 1; 70; 191; 122].

(** CO2, raw values 0x0258 and 0x0259, sent in plain text. *)
Definition co2 : list Z := [0x50; 0x02; 0x58; 0xaa; 0x0d; 0; 0; 0].
Definition co2' : list Z := [0x50; 0x02; 0x59; 0xab; 0x0d; 0; 0; 0].

(** A frame whose byte 3 is not the sum of bytes 0 to 2. *)
Definition bad_checksum : list Z := [0x50; 0x02; 0x58; 0xab; 0x0d; 0; 0; 0].

(** A frame with a good checksum and a tag outside the table. *)
Definition unknown_tag : list Z := [0x41; 0x00; 0x00; 0x41; 0x0d; 0; 0; 0].

End Sample.

(** ** Finding the device: [get_hiddev] *)

Module HidDev.

(** [CO2_USB_MFG = 'Holtek'], [CO2_USB_PRD = 'USB-zyTemp'] *)
Definition CO2_USB_MFG : string := "Holtek".
Definition CO2_USB_PRD : string := "USB-zyTemp".

(** One entry of [hid.enumerate()], with the keys [get_hiddev] reads. The
    two strings are [None] when the device does not report them; [path] is a
    byte string. *)
Record device_info : Type := {
  manufacturer_string : option string;
  product_string : option string;
  interface_number : Z;
  path : string;
  vendor_id : Z;
  product_id : Z;
}.

(** [x == s] for [x] a string or [None]. *)
Definition str_eq (x : option string) (s : string) : bool :=
  match x with
  | Some x => String.eqb x s
  | None => false
  end.

(** The condition of the list comprehension. *)
Definition is_sensor (e : device_info) : bool :=
  str_eq (manufacturer_string e) CO2_USB_MFG
  && str_eq (product_string e) CO2_USB_PRD.

(** The calls [get_hiddev] makes on the logger and on [hid], in order. *)
Inductive call : Type :=
| LogFound (intf : Z) (path_str : string) (vid pid : Z)
| LogNoDevice
| LogUsing (path_str : string)
| NewDevice
| OpenPath (path : string).

(** How [get_hiddev] ends: [return None], [return h] with [h] opened at a
    path, or an exception of its own making. *)
Inductive outcome : Type :=
| ReturnNone
| ReturnHandle (path : string)
| RaiseUnicodeDecodeError
| RaiseNameError.

Section GetHiddev.

(** [bytes.decode('utf-8')]: [None] stands for [UnicodeDecodeError]. *)
Variable decode : string -> option string.

(** [for s in hid_sensors: ...]: the list [p], the variable [path] as the
    last pass left it, and the calls made; the outcome is [None] when a path
    does not decode. *)
Fixpoint scan (hid_sensors : list device_info) (p : list string)
    (path_var : option string) (ev : list call)
    : list call * option (list string * option string) :=
  match hid_sensors with
  | [] => (ev, Some (p, path_var))
  | s :: rest =>
      match decode (path s) with
      | None => (ev, None)
      | Some path_str =>
          scan rest (p ++ [path s]) (Some (path s))
               (ev ++ [LogFound (interface_number s) path_str
                                (vendor_id s) (product_id s)])
      end
  end.

(** [get_hiddev()], given the result of [hid.enumerate()]. What
    [hid.enumerate], [hid.device] and [open_path] may raise themselves is
    left to the library. *)
Definition get_hiddev (enumerated : list device_info) : list call * outcome :=
  let hid_sensors := List.filter is_sensor enumerated in
  match scan hid_sensors [] None [] with
  | (ev, None) => (ev, RaiseUnicodeDecodeError)
  | (ev, Some (p, path_var)) =>
      match p with
      | [] => (ev ++ [LogNoDevice], ReturnNone)
      | p0 :: _ =>
          match decode p0 with
          | None => (ev, RaiseUnicodeDecodeError)
          | Some p0_str =>
              match path_var with
              | Some path =>
                  (ev ++ [LogUsing p0_str; NewDevice; OpenPath path],
                   ReturnHandle path)
              | None => (ev ++ [LogUsing p0_str; NewDevice], RaiseNameError)
              end
          end
      end
  end.

End GetHiddev.

End HidDev.

(** ** The discovery documents: [ZyTemp.discovery] in full *)

Module Discovery.

(** [config_content], key by key; [device] is flattened into its four
    entries. *)
Record config_content : Type := {
  device_identifiers : list string;
  device_manufacturer : string;
  device_model : string;
  device_name : string;
  enabled_by_default : bool;
  state_class : string;
  device_class : string;
  doc_name : string;
  state_topic : string;
  unique_id : string;
  unit_of_measurement : string;
  value_template : string;
  icon : string;
}.

(** The calls on [self.m]: [publish(topic, content, retain=...)] and
    [run(0.1)]. *)
Inductive call : Type :=
| Publish (topic : string) (content : config_content) (retain : bool)
| Run.

Section WithPaths.

(** [os.path.basename] and [os.path.join], taken as given. *)
Variable basename : string -> string.
Variable join : list string -> string.

Definition content_of (c : ConfigFile) (meas : measurement) : config_content :=
  let id := basename (mqtt_topic c) in
  {| device_identifiers := [id];
     device_manufacturer := HidDev.CO2_USB_MFG;
     device_model := HidDev.CO2_USB_PRD;
     device_name := friendly_name c;
     enabled_by_default := true;
     state_class := "measurement";
     device_class := ha_device_class meas;
     doc_name := friendly_name c +:+ " " +:+ name meas;
     state_topic := mqtt_topic c;
     unique_id := id +:+ "_" +:+ name meas;
     unit_of_measurement := unit meas;
     value_template := "{{ value_json." +:+ name meas +:+ " }}";
     icon := ha_icon meas |}.

(** [ZyTemp.discovery] *)
Definition discovery (self : ZyTemp) : list call :=
  if (String.length (discovery_prefix (cfg self)) =? 0)%nat then []
  else
    map (fun v =>
           let config_content := content_of (cfg self) v.2 in
           Publish (join [discovery_prefix (cfg self); "sensor"%string;
                          unique_id config_content; "config"%string])
                   config_content true)
        MEASUREMENTS
    ++ [Run].

End WithPaths.

(** The documents among the calls. *)
Definition documents (calls : list call) : list config_content :=
  omap (fun c => match c with Publish _ d _ => Some d | Run => None end) calls.

End Discovery.

(** A session object with the counter at 0 and nothing in the cache yet. *)
Definition Sample_settled : ZyTemp := set_measurements_to_ignore Sample.fresh 0.

(** The same with a Temperature reading stored and no CO2 reading yet. *)
Definition Sample_warm : ZyTemp :=
  set_values Sample_settled
    (<["Temperature"%string := temperature_conversion 0x1194]>
       (values Sample_settled)).

(** What a pass of the loop that started with the calls [ev0] keeps: the
    session object stays well formed with its configuration, the counter
    goes down by at most one, whatever is published is a complete snapshot
    of both names on the configured topic, and the handle is not closed. *)
Definition pass_facts (self : ZyTemp) (ev0 : list event)
    (res : ZyTemp * list event * control) : Prop :=
  exists ev2,
    res.1.2 = ev0 ++ ev2
    /\ well_formed res.1.1
    /\ cfg res.1.1 = cfg self
    /\ measurements_to_ignore self - 1 <= measurements_to_ignore res.1.1
       <= measurements_to_ignore self
    /\ (forall t p, MqttPublish t p ∈ ev2 ->
          t = mqtt_topic (cfg self) /\ dom p = names /\ complete p)
    /\ (HidClose ∉ ev2)
    /\ res.2 <> Return.





(** * Properties *)

(** ** Bytes *)

Lemma length8_inv (l : list Z) :
  length l = 8%nat ->
  exists a0 a1 a2 a3 a4 a5 a6 a7, l = [a0; a1; a2; a3; a4; a5; a6; a7].
Proof.
  intros H.
  do 8 (destruct l as [|? l]; [discriminate H|]).
  destruct l; [|discriminate H].
  by do 8 eexists.
Qed.

Lemma is_byte_all_bytes (x : Z) : is_byte x -> In x all_bytes.
Proof.
  intros [Hlo Hhi]. unfold all_bytes.
  rewrite <- (Z2Nat.id x Hlo). apply in_map, in_seq. lia.
Qed.

Lemma for_all_bytes_spec (p : Z -> bool) :
  for_all_bytes p = true -> forall x, is_byte x -> p x = true.
Proof.
  unfold for_all_bytes. rewrite forallb_forall.
  intros H x Hx. apply H, is_byte_all_bytes, Hx.
Qed.

Lemma for_all_bytes2_spec (p : Z -> Z -> bool) :
  for_all_bytes2 p = true ->
  forall x y, is_byte x -> is_byte y -> p x y = true.
Proof.
  intros H x y Hx Hy.
  apply (for_all_bytes_spec (p x)); [|exact Hy].
  apply (for_all_bytes_spec (fun a => for_all_bytes (p a))); [exact H|exact Hx].
Qed.

Lemma land_0xff_byte (x : Z) : is_byte (Z.land x 0xff).
Proof.
  unfold is_byte. change 0xff with (Z.ones 8).
  rewrite Z.land_ones by lia. apply Z.mod_pos_bound. lia.
Qed.

Lemma lxor_byte (a k : Z) : is_byte a -> is_byte k -> is_byte (Z.lxor a k).
Proof.
  intros Ha Hk.
  assert (H := for_all_bytes2_spec
                 (fun a k => (0 <=? Z.lxor a k) && (Z.lxor a k <? 256))
                 ltac:(vm_compute; reflexivity) a k Ha Hk).
  apply andb_true_iff in H as [H1 H2]. unfold is_byte. lia.
Qed.

Lemma lxor_lxor_key (a k : Z) : Z.lxor (Z.lxor a k) k = a.
Proof. by rewrite Z.lxor_assoc, Z.lxor_nilpotent, Z.lxor_0_r. Qed.

(** ** The transform on a block, element by element *)

Section Blocks.
Import TransformSpec Inverse.

Variables k0 k1 k2 k3 k4 k5 k6 k7 : Z.
Variables a0 a1 a2 a3 a4 a5 a6 a7 : Z.

Lemma decrypt_block8 :
  Decrypt.decrypt [k0; k1; k2; k3; k4; k5; k6; k7]
                  [a0; a1; a2; a3; a4; a5; a6; a7]
  = Some (transform [k0; k1; k2; k3; k4; k5; k6; k7]
                    [a0; a1; a2; a3; a4; a5; a6; a7]).
Proof. reflexivity. Qed.

Lemma transform_block8 :
  transform [k0; k1; k2; k3; k4; k5; k6; k7]
            [a0; a1; a2; a3; a4; a5; a6; a7]
  = [ sub8 (rot3 (Z.lxor a2 k0) (Z.lxor a3 k7)) 0x84;
      sub8 (rot3 (Z.lxor a4 k1) (Z.lxor a2 k0)) 0x47;
      sub8 (rot3 (Z.lxor a0 k2) (Z.lxor a4 k1)) 0x56;
      sub8 (rot3 (Z.lxor a7 k3) (Z.lxor a0 k2)) 0xD6;
      sub8 (rot3 (Z.lxor a1 k4) (Z.lxor a7 k3)) 0x07;
      sub8 (rot3 (Z.lxor a6 k5) (Z.lxor a1 k4)) 0x93;
      sub8 (rot3 (Z.lxor a5 k6) (Z.lxor a6 k5)) 0x93;
      sub8 (rot3 (Z.lxor a3 k7) (Z.lxor a5 k6)) 0x56 ].
Proof. reflexivity. Qed.

Lemma encrypt_block8 :
  encrypt [k0; k1; k2; k3; k4; k5; k6; k7]
          [a0; a1; a2; a3; a4; a5; a6; a7]
  = [ Z.lxor (unrot3 (add8 a2 0x56) (add8 a3 0xD6)) k2;
      Z.lxor (unrot3 (add8 a4 0x07) (add8 a5 0x93)) k4;
      Z.lxor (unrot3 (add8 a0 0x84) (add8 a1 0x47)) k0;
      Z.lxor (unrot3 (add8 a7 0x56) (add8 a0 0x84)) k7;
      Z.lxor (unrot3 (add8 a1 0x47) (add8 a2 0x56)) k1;
      Z.lxor (unrot3 (add8 a6 0x93) (add8 a7 0x56)) k6;
      Z.lxor (unrot3 (add8 a5 0x93) (add8 a6 0x93)) k5;
      Z.lxor (unrot3 (add8 a3 0xD6) (add8 a4 0x07)) k3 ].
Proof. reflexivity. Qed.

End Blocks.

Lemma rot3_byte (a b : Z) : is_byte (rot3 a b).
Proof. apply land_0xff_byte. Qed.

Lemma sub8_byte (p c : Z) : is_byte (sub8 p c).
Proof. apply land_0xff_byte. Qed.

Lemma add8_sub8 (p c : Z) : is_byte p -> Inverse.add8 (sub8 p c) c = p.
Proof.
  intros [Hlo Hhi]. unfold Inverse.add8, sub8.
  change 0xFF with (Z.ones 8). rewrite !Z.land_ones by lia.
  rewrite Zplus_mod_idemp_l.
  replace (0x100 + p - c + c) with (p + 1 * 2 ^ 8) by lia.
  rewrite Z_mod_plus_full. apply Z.mod_small. lia.
Qed.

Lemma sub8_add8 (o c : Z) : is_byte o -> sub8 (Inverse.add8 o c) c = o.
Proof.
  intros [Hlo Hhi]. unfold Inverse.add8, sub8.
  change 0xFF with (Z.ones 8). rewrite !Z.land_ones by lia.
  rewrite (Z.mod_eq (o + c) (2 ^ 8)) by lia.
  replace (0x100 + (o + c - 2 ^ 8 * ((o + c) / 2 ^ 8)) - c)
    with (o + (1 - (o + c) / 2 ^ 8) * 2 ^ 8) by lia.
  rewrite Z_mod_plus_full. apply Z.mod_small. lia.
Qed.

(** ** The neighbour mixing of stage 3 loses no bit *)

Lemma rot3_high (x y : Z) :
  is_byte x -> is_byte y ->
  Z.land (Z.shiftl (rot3 x y) 3) 0xFF = Z.shiftl (Z.shiftr x 3) 3.
Proof.
  intros Hx Hy. apply Z.eqb_eq.
  apply (for_all_bytes2_spec
           (fun x y => Z.land (Z.shiftl (rot3 x y) 3) 0xFF
                       =? Z.shiftl (Z.shiftr x 3) 3));
    [vm_compute; reflexivity | exact Hx | exact Hy].
Qed.

Lemma rot3_low (z x : Z) :
  is_byte z -> is_byte x -> Z.shiftr (rot3 z x) 5 = Z.land x 7.
Proof.
  intros Hz Hx. apply Z.eqb_eq.
  apply (for_all_bytes2_spec (fun z x => Z.shiftr (rot3 z x) 5 =? Z.land x 7));
    [vm_compute; reflexivity | exact Hz | exact Hx].
Qed.

Lemma byte_high_low (x : Z) :
  is_byte x -> Z.lor (Z.shiftl (Z.shiftr x 3) 3) (Z.land x 7) = x.
Proof.
  intros Hx. apply Z.eqb_eq.
  apply (for_all_bytes_spec
           (fun x => Z.lor (Z.shiftl (Z.shiftr x 3) 3) (Z.land x 7) =? x));
    [vm_compute; reflexivity | exact Hx].
Qed.

Lemma unrot3_rot3 (x y z : Z) :
  is_byte x -> is_byte y -> is_byte z ->
  Inverse.unrot3 (rot3 x y) (rot3 z x) = x.
Proof.
  intros Hx Hy Hz. unfold Inverse.unrot3.
  rewrite rot3_high, rot3_low by assumption.
  by apply byte_high_low.
Qed.

Lemma unrot3_byte (p q : Z) : is_byte p -> is_byte q -> is_byte (Inverse.unrot3 p q).
Proof.
  intros Hp Hq.
  assert (H := for_all_bytes2_spec
                 (fun p q => (0 <=? Inverse.unrot3 p q) && (Inverse.unrot3 p q <? 256))
                 ltac:(vm_compute; reflexivity) p q Hp Hq).
  apply andb_true_iff in H as [H1 H2]. unfold is_byte. lia.
Qed.

Lemma rot3_unrot3 (p q r : Z) :
  is_byte p -> is_byte q -> is_byte r ->
  rot3 (Inverse.unrot3 p q) (Inverse.unrot3 r p) = p.
Proof.
  intros Hp Hq Hr. unfold rot3. rewrite Z.land_lor_distr_l.
  assert (H1 : Z.land (Z.shiftr (Inverse.unrot3 p q) 3) 0xFF = Z.land p 31).
  { apply Z.eqb_eq.
    apply (for_all_bytes2_spec
             (fun p q => Z.land (Z.shiftr (Inverse.unrot3 p q) 3) 0xFF
                         =? Z.land p 31));
      [vm_compute; reflexivity | exact Hp | exact Hq]. }
  assert (H2 : Z.land (Z.shiftl (Inverse.unrot3 r p) 5) 0xFF
               = Z.shiftl (Z.shiftr p 5) 5).
  { apply Z.eqb_eq.
    apply (for_all_bytes2_spec
             (fun r p => Z.land (Z.shiftl (Inverse.unrot3 r p) 5) 0xFF
                         =? Z.shiftl (Z.shiftr p 5) 5));
      [vm_compute; reflexivity | exact Hr | exact Hp]. }
  rewrite H1, H2. apply Z.eqb_eq.
  apply (for_all_bytes_spec
           (fun p => Z.lor (Z.land p 31) (Z.shiftl (Z.shiftr p 5) 5) =? p));
    [vm_compute; reflexivity | exact Hp].
Qed.

(** ** Blocks *)

Lemma is_block_inv (l : list Z) :
  is_block l ->
  exists a0 a1 a2 a3 a4 a5 a6 a7,
    l = [a0; a1; a2; a3; a4; a5; a6; a7]
    /\ is_byte a0 /\ is_byte a1 /\ is_byte a2 /\ is_byte a3
    /\ is_byte a4 /\ is_byte a5 /\ is_byte a6 /\ is_byte a7.
Proof.
  intros [Hlen Hall].
  destruct (length8_inv l Hlen) as (a0 & a1 & a2 & a3 & a4 & a5 & a6 & a7 & ->).
  exists a0, a1, a2, a3, a4, a5, a6, a7.
  repeat (apply Forall_cons in Hall as [? Hall]).
  split; [reflexivity|]. repeat (split; [assumption|]). assumption.
Qed.

Lemma is_block_KEY : is_block KEY.
Proof. split; [reflexivity|]. repeat constructor; unfold is_byte; lia. Qed.

Ltac block_inv H :=
  let a0 := fresh "a" in let a1 := fresh "a" in let a2 := fresh "a" in
  let a3 := fresh "a" in let a4 := fresh "a" in let a5 := fresh "a" in
  let a6 := fresh "a" in let a7 := fresh "a" in
  destruct (is_block_inv _ H)
    as (a0 & a1 & a2 & a3 & a4 & a5 & a6 & a7 & -> & ? & ? & ? & ? & ? & ? & ? & ?).

Lemma decrypt_transform (key data : list Z) :
  length key = 8%nat -> length data = 8%nat ->
  Decrypt.decrypt key data = Some (TransformSpec.transform key data).
Proof.
  intros Hk Hd.
  destruct (length8_inv key Hk) as (k0 & k1 & k2 & k3 & k4 & k5 & k6 & k7 & ->).
  destruct (length8_inv data Hd) as (a0 & a1 & a2 & a3 & a4 & a5 & a6 & a7 & ->).
  apply decrypt_block8.
Qed.

Lemma transform_is_block (key data : list Z) :
  is_block (TransformSpec.transform key data).
Proof.
  split; [reflexivity|].
  unfold TransformSpec.transform, TransformSpec.stage5.
  apply Forall_map, Forall_forall. intros i _. apply land_0xff_byte.
Qed.

Lemma encrypt_transform (key data : list Z) :
  is_block key -> is_block data ->
  Inverse.encrypt key (TransformSpec.transform key data) = data.
Proof.
  intros Hk Hd. block_inv Hk. block_inv Hd.
  rewrite transform_block8, encrypt_block8.
  rewrite !add8_sub8 by apply rot3_byte.
  rewrite !unrot3_rot3 by (apply lxor_byte; assumption).
  by rewrite !lxor_lxor_key.
Qed.

Lemma transform_encrypt (key out : list Z) :
  is_block key -> is_block out ->
  TransformSpec.transform key (Inverse.encrypt key out) = out.
Proof.
  intros Hk Ho. block_inv Hk. block_inv Ho.
  rewrite encrypt_block8, transform_block8.
  rewrite !lxor_lxor_key.
  rewrite !rot3_unrot3 by apply land_0xff_byte.
  by rewrite !sub8_add8 by assumption.
Qed.

Lemma encrypt_is_block (key out : list Z) :
  is_block key -> is_block out -> is_block (Inverse.encrypt key out).
Proof.
  intros Hk Ho. block_inv Hk. block_inv Ho.
  rewrite encrypt_block8. split; [reflexivity|].
  repeat (apply Forall_cons; split;
          [apply lxor_byte; [apply unrot3_byte; apply land_0xff_byte | assumption]|]).
  constructor.
Qed.

(** X3: every block of 8 bytes is the transform of a block of 8 bytes: with
    [decrypt_injective] below, [decrypt KEY] is a bijection of the 8-byte
    blocks. *)
Lemma decrypt_surjective (out : list Z) :
  is_block out ->
  exists data, is_block data /\ Decrypt.decrypt KEY data = Some out.
Proof.
  intros Ho. exists (Inverse.encrypt KEY out). split.
  - apply encrypt_is_block; [apply is_block_KEY | exact Ho].
  - rewrite decrypt_transform.
    + by rewrite transform_encrypt by (apply is_block_KEY || exact Ho).
    + reflexivity.
    + apply encrypt_is_block; [apply is_block_KEY | exact Ho].
Qed.

(** ** C1 and C6: the byte transform *)

(** C1: on every 8-byte input, [decrypt] with the fixed key returns (it has
    no error path) the composition of the five stages of the specification,
    and the result is 8 bytes, each in 0..255. *)
Theorem decrypt_five_stages (data : list Z) :
  length data = 8%nat ->
  Decrypt.decrypt KEY data
  = Some (TransformSpec.stage5
            (TransformSpec.stage3
               (TransformSpec.stage2 KEY (TransformSpec.stage1 data))))
  /\ length (TransformSpec.transform KEY data) = 8%nat
  /\ Forall is_byte (TransformSpec.transform KEY data).
Proof.
  intros Hd. split.
  - by apply decrypt_transform.
  - apply transform_is_block.
Qed.

Lemma decrypt_five_stages_witness :
  Decrypt.decrypt KEY [149; 228; 246; 32; 1; 70; 191; 122]
  = Some [0x42; 0x11; 0x94; 0xe7; 0x0d; 0; 0; 0].
Proof.
  destruct (decrypt_five_stages [149; 228; 246; 32; 1; 70; 191; 122] eq_refl)
    as [H _].
  rewrite H. reflexivity.
Defined.

(** C6: the byte transform with the fixed key is injective on 8-byte blocks:
    two blocks with the same transform are the same block. *)
Theorem decrypt_injective (d1 d2 : list Z) :
  is_block d1 -> is_block d2 ->
  Decrypt.decrypt KEY d1 = Decrypt.decrypt KEY d2 -> d1 = d2.
Proof.
  intros H1 H2 Heq.
  rewrite !decrypt_transform in Heq by (reflexivity || apply H1 || apply H2).
  apply (inj Some) in Heq.
  rewrite <- (encrypt_transform KEY d1 is_block_KEY H1).
  rewrite <- (encrypt_transform KEY d2 is_block_KEY H2).
  by rewrite Heq.
Qed.

Lemma decrypt_injective_witness :
  [149; 228; 246; 32; 1; 70; 191; 122] = [149; 228; 246; 32; 1; 70; 191; 122].
Proof.
  apply decrypt_injective;
    [ split; [reflexivity | repeat constructor; unfold is_byte; lia]
    | split; [reflexivity | repeat constructor; unfold is_byte; lia]
    | reflexivity ].
Defined.

(** ** One pass of the loop on an 8-byte frame *)

Lemma candidate_length (raw : list Z) :
  length raw = 8%nat -> length (FrameSpec.candidate raw) = 8%nat.
Proof.
  intros H. unfold FrameSpec.candidate.
  destruct (_ =? _); [exact H | reflexivity].
Qed.

Lemma table_lookup_kind (tag : Z) :
  table_lookup MEASUREMENTS tag
  = match FrameSpec.kind_of_tag tag with
    | Some FrameSpec.Temperature =>
        Some {| name := "Temperature"; unit := "°C";
                conversion := temperature_conversion;
                ha_device_class := "temperature";
                ha_icon := "mdi:thermometer" |}
    | Some FrameSpec.CO2 =>
        Some {| name := "CO2"; unit := "ppm";
                conversion := co2_conversion;
                ha_device_class := "carbon_dioxide";
                ha_icon := "mdi:molecule-co2" |}
    | None => None
    end.
Proof.
  unfold FrameSpec.kind_of_tag. cbn [table_lookup MEASUREMENTS].
  rewrite (Z.eqb_sym 0x42 tag), (Z.eqb_sym 0x50 tag).
  by repeat destruct (tag =? _).
Qed.

Lemma handle_measurement_frame (self : ZyTemp) (ev : list event) (c : list Z) :
  length c = 8%nat ->
  handle_measurement self ev c
  = match FrameSpec.kind_of_tag (TransformSpec.at_ c 0) with
    | None =>
        (self, ev ++ [Log DEBUG (MsgUnknownKey (TransformSpec.at_ c 0))], Continue)
    | Some k =>
        gate self ev (FrameSpec.kind_name k) (FrameSpec.kind_unit k)
             (FrameSpec.convert k
                (Z.lor (Z.shiftl (TransformSpec.at_ c 1) 8) (TransformSpec.at_ c 2)))
    end.
Proof.
  intros H.
  destruct (length8_inv c H) as (c0 & c1 & c2 & c3 & c4 & c5 & c6 & c7 & ->).
  unfold handle_measurement, PyList.get, TransformSpec.at_. cbn [lookup list_lookup default id].
  rewrite table_lookup_kind.
  by destruct (FrameSpec.kind_of_tag c0) as [[]|].
Qed.

Lemma process_frame_frame (self : ZyTemp) (ev : list event) (c : list Z) :
  length c = 8%nat ->
  process_frame self ev c
  = if FrameSpec.checksum_holds c then handle_measurement self ev c
    else (self, ev ++ [Log ERROR MsgChecksumError], Continue).
Proof.
  intros H.
  destruct (length8_inv c H) as (c0 & c1 & c2 & c3 & c4 & c5 & c6 & c7 & ->).
  unfold process_frame, FrameSpec.checksum_holds, checksum, PyList.get,
    TransformSpec.at_.
  cbn [lookup list_lookup default id take foldl]. rewrite Z.add_0_l.
  by destruct (c3 =? _).
Qed.

Lemma run_iteration_candidate (self : ZyTemp) (raw : list Z) :
  length raw = 8%nat ->
  run_iteration self (ReadData raw)
  = process_frame self (FrameSpec.transform_log raw) (FrameSpec.candidate raw).
Proof.
  intros H.
  unfold FrameSpec.candidate, FrameSpec.transform_log.
  destruct (length8_inv raw H) as (a0 & a1 & a2 & a3 & a4 & a5 & a6 & a7 & ->).
  unfold run_iteration, PyList.get, TransformSpec.at_.
  cbn [lookup list_lookup default id].
  destruct (a4 =? 13); cbn [negb]; [reflexivity|].
  by rewrite (decrypt_block8 0xc4 0xc6 0xc0 0x92 0x40 0x23 0xdc 0x96).
Qed.

Lemma run_iteration_frame (self : ZyTemp) (raw : list Z) :
  length raw = 8%nat ->
  run_iteration self (ReadData raw) = iteration_on_frame self raw.
Proof.
  intros H. rewrite (run_iteration_candidate self raw H).
  rewrite (process_frame_frame self _ _ (candidate_length raw H)).
  rewrite (handle_measurement_frame self _ _ (candidate_length raw H)).
  unfold iteration_on_frame, FrameSpec.validate.
  by destruct (FrameSpec.checksum_holds _).
Qed.

(** ** C2: the frame validator *)

(** C2: for every 8-byte raw frame, the loop hands to the checksum test the
    raw bytes themselves when [raw[4] == 0x0d] and their transform under the
    fixed key otherwise; a candidate [c] goes on to be decoded if and only if
    [c[3] == (c[0] + c[1] + c[2]) & 0xFF], and any other candidate is
    reported as a checksum error and dropped, the session object
    unchanged and the loop continuing. *)
Theorem frame_validator (self : ZyTemp) (raw : list Z) :
  length raw = 8%nat ->
  let c := FrameSpec.candidate raw in
  let ev := FrameSpec.transform_log raw in
  run_iteration self (ReadData raw) = process_frame self ev c
  /\ (raw !! 4%nat = Some 0x0d -> c = raw /\ ev = [])
  /\ (raw !! 4%nat <> Some 0x0d ->
      Decrypt.decrypt KEY raw = Some c /\ ev = [Log DEBUG MsgEncrypted])
  /\ (TransformSpec.at_ c 3
      = Z.land (TransformSpec.at_ c 0 + TransformSpec.at_ c 1 + TransformSpec.at_ c 2) 0xFF ->
      process_frame self ev c = handle_measurement self ev c)
  /\ (TransformSpec.at_ c 3
      <> Z.land (TransformSpec.at_ c 0 + TransformSpec.at_ c 1 + TransformSpec.at_ c 2) 0xFF ->
      process_frame self ev c = (self, ev ++ [Log ERROR MsgChecksumError], Continue)).
Proof.
  intros H c ev. split; [by apply run_iteration_candidate|].
  assert (Hc : length c = 8%nat) by by apply candidate_length.
  assert (H4 : raw !! 4%nat = Some (TransformSpec.at_ raw 4)).
  { destruct (length8_inv raw H) as (a0 & a1 & a2 & a3 & a4 & a5 & a6 & a7 & ->).
    reflexivity. }
  split; [|split; [|split]].
  - rewrite H4. intros [= H13]. subst c ev.
    unfold FrameSpec.candidate, FrameSpec.transform_log.
    by rewrite H13.
  - rewrite H4. intros Hne. subst c ev.
    unfold FrameSpec.candidate, FrameSpec.transform_log.
    destruct (Z.eqb_spec (TransformSpec.at_ raw 4) 13) as [H13|_].
    + by rewrite H13 in Hne.
    + split; [by apply decrypt_transform | reflexivity].
  - intros Heq. rewrite process_frame_frame by exact Hc.
    unfold FrameSpec.checksum_holds. by rewrite Heq, Z.eqb_refl.
  - intros Hne. rewrite process_frame_frame by exact Hc.
    unfold FrameSpec.checksum_holds. fold c.
    by apply Z.eqb_neq in Hne as ->.
Qed.

Lemma frame_validator_witness :
  run_iteration Sample.fresh (ReadData Sample.temperature_encrypted)
  = process_frame Sample.fresh [Log DEBUG MsgEncrypted] Sample.temperature.
Proof.
  destruct (frame_validator Sample.fresh Sample.temperature_encrypted eq_refl)
    as [H _].
  exact H.
Defined.

(** ** C3 and C10: the measurement decoder and its conversions *)

Lemma lor_shiftl_big_endian (hi lo : Z) :
  is_byte hi -> is_byte lo -> Z.lor (Z.shiftl hi 8) lo = 256 * hi + lo.
Proof.
  intros Hh Hl. apply Z.eqb_eq.
  apply (for_all_bytes2_spec
           (fun hi lo => Z.lor (Z.shiftl hi 8) lo =? 256 * hi + lo));
    [vm_compute; reflexivity | exact Hh | exact Hl].
Qed.

(** The binary64 reading of every 16-bit raw value lies within [2^-42] of
    the rational [v/16 - 273.15]. *)
Lemma temperature_conversion_accurate (v : Z) :
  0 <= v < 65536 ->
  exists f, temperature_conversion v = PyFloat f
            /\ (Qabs (float_to_Q f - exact_temperature v) <= 1 # 2 ^ 42)%Q.
Proof.
  intros Hv.
  assert (Hc : temperature_close v = true).
  { replace v with (256 * (v / 256) + v mod 256)
      by (symmetry; apply Z.div_mod; lia).
    apply (for_all_bytes2_spec (fun hi lo => temperature_close (256 * hi + lo)));
      [vm_compute; reflexivity | |]; unfold is_byte.
    - split; [apply Z.div_pos; lia | apply Z.div_lt_upper_bound; lia].
    - apply Z.mod_pos_bound. lia. }
  unfold temperature_close in Hc.
  destruct (temperature_conversion v) as [| |f]; try discriminate Hc.
  exists f. split; [reflexivity|]. by apply Qle_bool_iff.
Qed.

(** C3: the table has exactly the two entries 0x42 (Temperature) and 0x50
    (CO2); on a frame whose tag is neither, the unknown tag is logged, the
    session object is unchanged and the loop continues; otherwise the
    big-endian 16-bit value [v] of bytes 1 and 2 becomes the reading
    [v/16 - 273.15] for Temperature, a binary64 number within [2^-42] of
    that rational, and [v] itself for CO2. *)
Theorem measurement_decoder (self : ZyTemp) (ev : list event) (frame : list Z) :
  is_block frame ->
  let tag := TransformSpec.at_ frame 0 in
  let v := FrameSpec.raw_value frame in
  map (fun e => (e.1, name e.2)) MEASUREMENTS
  = [(0x42, "Temperature"%string); (0x50, "CO2"%string)]
  /\ 0 <= v < 65536
  /\ (tag <> 0x42 -> tag <> 0x50 ->
      table_lookup MEASUREMENTS tag = None
      /\ handle_measurement self ev frame
         = (self, ev ++ [Log DEBUG (MsgUnknownKey tag)], Continue))
  /\ (tag = 0x42 ->
      handle_measurement self ev frame
      = gate self ev "Temperature" "°C"
             (PyFloat (float_of_int v / 16 - 273.15)%float)
      /\ (Qabs (float_to_Q (float_of_int v / 16 - 273.15)%float
                - ((v # 16) - (27315 # 100)))
          <= 1 # 2 ^ 42)%Q)
  /\ (tag = 0x50 ->
      handle_measurement self ev frame = gate self ev "CO2" "ppm" (PyInt v)).
Proof.
  intros Hb tag v.
  assert (Hlen : length frame = 8%nat) by apply Hb.
  assert (Hv : Z.lor (Z.shiftl (TransformSpec.at_ frame 1) 8) (TransformSpec.at_ frame 2) = v
               /\ 0 <= v < 65536).
  { subst v. unfold FrameSpec.raw_value. block_inv Hb.
    unfold TransformSpec.at_. cbn [lookup list_lookup default id].
    rewrite lor_shiftl_big_endian by assumption. unfold is_byte in *. lia. }
  destruct Hv as [Hv Hrange].
  pose proof (handle_measurement_frame self ev frame Hlen) as Hh.
  rewrite Hv in Hh. fold tag in Hh.
  split; [reflexivity|]. split; [exact Hrange|].
  unfold FrameSpec.kind_of_tag in Hh.
  split; [|split].
  - intros H42 H50. apply Z.eqb_neq in H42, H50.
    rewrite table_lookup_kind. unfold FrameSpec.kind_of_tag.
    by rewrite Hh, H42, H50.
  - intros Ht. split; [by rewrite Hh, Ht|].
    destruct (temperature_conversion_accurate v Hrange) as (f & Hf & Hacc).
    unfold temperature_conversion in Hf. injection Hf as <-. exact Hacc.
  - intros Ht. by rewrite Hh, Ht.
Qed.

(** The Temperature frame with raw value 0x1194: the reading is the float
    0x1.033333333334p+3, within [2^-42] of 4500/16 - 273.15. *)
Lemma measurement_decoder_witness :
  handle_measurement Sample.fresh [] Sample.temperature
  = gate Sample.fresh [] "Temperature" "°C" (PyFloat 0x1.033333333334p+3)
  /\ (Qabs (float_to_Q 0x1.033333333334p+3 - ((4500 # 16) - (27315 # 100)))
      <= 1 # 2 ^ 42)%Q.
Proof.
  assert (Hb : is_block Sample.temperature)
    by (split; [reflexivity | repeat constructor; unfold is_byte; lia]).
  destruct (measurement_decoder Sample.fresh [] Sample.temperature Hb)
    as (_ & _ & _ & H & _).
  exact (H eq_refl).
Defined.

(** C10, as the code has it: the Temperature conversion of raw value 0x1194
    (4500) is the binary64 number 0x1.033333333334p+3, about
    8.100000000000023, within [2^-45] of 8.1; the CO2 conversion of raw
    value 0x0258 is the integer 600. *)
Theorem conversion_examples :
  (conversion <$> table_lookup MEASUREMENTS 0x42) = Some temperature_conversion
  /\ (conversion <$> table_lookup MEASUREMENTS 0x50) = Some co2_conversion
  /\ temperature_conversion 0x1194 = PyFloat 0x1.033333333334p+3
  /\ (Qabs (float_to_Q 0x1.033333333334p+3 - (81 # 10)) <= 1 # 2 ^ 45)%Q
  /\ (exact_temperature 0x1194 == 81 # 10)%Q
  /\ co2_conversion 0x0258 = PyInt 600.
Proof.
  split; [reflexivity|]. split; [reflexivity|]. split; [reflexivity|].
  split; [by apply Qle_bool_iff|]. split; reflexivity.
Qed.

(** C10, as the claim has it, fails: the Temperature conversion of 0x1194 is
    a number at least 0.7 away from 8.85. *)
Lemma temperature_4500_is_not_8_85 :
  exists f, temperature_conversion 0x1194 = PyFloat f
            /\ PrimFloat.ltb 0.7 (PrimFloat.abs (f - 8.85)) = true
            /\ (7 # 10 <= Qabs (float_to_Q f - (885 # 100)))%Q.
Proof.
  exists 0x1.033333333334p+3%float.
  split; [reflexivity|]. split; [reflexivity|]. by apply Qle_bool_iff.
Qed.

(** ** The snapshot cache *)

Lemma any_none_true (d : gmap string pyval) :
  any_none d = true <-> exists k, d !! k = Some PyNone.
Proof.
  unfold any_none. rewrite existsb_exists. split.
  - intros (v & Hin & Hv). destruct v; try discriminate Hv.
    apply list_elem_of_In in Hin.
    apply list_elem_of_fmap in Hin as ([k v] & Heq & Hin).
    simpl in Heq. subst v. exists k. by apply elem_of_map_to_list.
  - intros (k & Hk). exists PyNone. split; [|reflexivity].
    apply list_elem_of_In, list_elem_of_fmap. exists (k, PyNone).
    split; [reflexivity|]. by apply elem_of_map_to_list.
Qed.

Lemma any_none_false (d : gmap string pyval) :
  any_none d = false <-> complete d.
Proof.
  unfold complete. split.
  - intros Hf k v Hk ->.
    assert (any_none d = true) by (apply any_none_true; eauto). congruence.
  - intros Hc. destruct (any_none d) eqn:E; [|reflexivity].
    apply any_none_true in E as (k & Hk). by destruct (Hc k PyNone Hk).
Qed.

Lemma complete_insert (d : gmap string pyval) (k : string) (v : pyval) :
  complete d -> v <> PyNone -> complete (<[k:=v]> d).
Proof.
  intros Hc Hv k' v' Hl.
  destruct (decide (k = k')) as [->|Hne].
  - rewrite lookup_insert_eq in Hl. congruence.
  - rewrite lookup_insert_ne in Hl by exact Hne. by eapply Hc.
Qed.

Lemma dom_insert_present (d : gmap string pyval) (k : string) (v : pyval) :
  is_Some (d !! k) -> dom (<[k:=v]> d) = dom d.
Proof.
  intros Hk. apply elem_of_dom in Hk. rewrite dom_insert_L.
  by apply subseteq_union_1_L, singleton_subseteq_l.
Qed.

(** What [update] returns on a name the cache holds. *)
Lemma update_present (self : ZyTemp) (key : string) (value old : pyval) :
  values self !! key = Some old ->
  update self key value
  = Some (if py_eq old value then (self, [])
          else
            let d := <[key:=value]> (values self) in
            (set_values self d,
             if any_none d then [] else [MqttPublish (mqtt_topic (cfg self)) d])).
Proof.
  intros Hk. unfold update. rewrite Hk.
  destruct (py_eq old value); [reflexivity|].
  cbn [values set_values cfg]. by destruct (any_none _).
Qed.

Lemma update_facts (self : ZyTemp) (key : string) (value : pyval) :
  key ∈ dom (values self) ->
  exists self' ev,
    update self key value = Some (self', ev)
    /\ cfg self' = cfg self
    /\ measurements_to_ignore self' = measurements_to_ignore self
    /\ dom (values self') = dom (values self)
    /\ count is_pump ev = 0%nat
    /\ (forall t p, MqttPublish t p ∈ ev -> p = values self' /\ complete p).
Proof.
  intros Hin. apply elem_of_dom in Hin as [old Hold].
  rewrite (update_present self key value old Hold).
  destruct (py_eq old value).
  - exists self, []. do 5 (split; [reflexivity|]). intros t p Hp. inversion Hp.
  - cbn zeta. eexists _, _. split; [reflexivity|].
    cbn [cfg measurements_to_ignore values set_values].
    split; [reflexivity|]. split; [reflexivity|].
    split; [by apply dom_insert_present|].
    destruct (any_none _) eqn:E.
    + split; [reflexivity|]. intros t p Hp. inversion Hp.
    + split; [reflexivity|]. intros t p Hp.
      apply list_elem_of_singleton in Hp. injection Hp as -> ->.
      split; [reflexivity|]. by apply any_none_false.
Qed.

(** ** The calibration counter *)

Lemma count_app (p : event -> bool) (a b : list event) :
  count p (a ++ b) = (count p a + count p b)%nat.
Proof. unfold count. by rewrite filter_app, length_app. Qed.

Lemma transform_log_quiet (raw : list Z) :
  count is_pump (FrameSpec.transform_log raw) = 0%nat
  /\ count is_publish (FrameSpec.transform_log raw) = 0%nat
  /\ forall t p, MqttPublish t p ∉ FrameSpec.transform_log raw.
Proof.
  unfold FrameSpec.transform_log.
  destruct (_ =? _); (split; [reflexivity|]; split; [reflexivity|]);
    intros t p Hp; inversion Hp as [|? ? ? Hp']; inversion Hp'.
Qed.

(** While the counter is positive the reading stops at the gate. *)
Lemma gate_ignoring (self : ZyTemp) (ev : list event)
    (m_name m_unit : string) (m_reading : pyval) :
  0 < measurements_to_ignore self ->
  gate self ev m_name m_unit m_reading
  = (if String.eqb m_name "CO2"
     then set_measurements_to_ignore self (measurements_to_ignore self - 1)
     else self,
     (ev ++ [Log DEBUG (MsgReading m_name m_reading m_unit true)]) ++ [MqttRun],
     Continue).
Proof.
  intros Hpos. unfold gate.
  assert (H1 : (0 <? measurements_to_ignore self) = true) by by apply Z.ltb_lt.
  assert (H2 : (measurements_to_ignore self =? 0) = false) by (apply Z.eqb_neq; lia).
  rewrite H1. cbn [negb]. rewrite H2. cbn [negb app]. rewrite andb_true_r.
  by destruct (String.eqb m_name "CO2").
Qed.

(** Once the counter is 0 the reading goes to [update]. *)
Lemma gate_admitting (self : ZyTemp) (ev : list event)
    (m_name m_unit : string) (m_reading : pyval) :
  measurements_to_ignore self = 0 ->
  gate self ev m_name m_unit m_reading
  = match update self m_name m_reading with
    | Some (self', ev_update) =>
        (self',
         (ev ++ [Log DEBUG (MsgReading m_name m_reading m_unit false)])
           ++ ev_update ++ [MqttRun],
         Continue)
    | None =>
        (self, ev ++ [Log DEBUG (MsgReading m_name m_reading m_unit false)],
         Raise KeyError)
    end.
Proof.
  intros H0. unfold gate. rewrite H0. cbn [Z.ltb Z.compare negb].
  destruct (update self m_name m_reading) as [[self' evu]|] eqn:E; [|reflexivity].
  assert (Hm : measurements_to_ignore self' = 0).
  { unfold update in E. destruct (values self !! m_name); [|discriminate E].
    destruct (py_eq _ _); [by injection E as <- _|].
    destruct (any_none _); by injection E as <- _. }
  rewrite Hm. cbn [Z.eqb negb]. by rewrite andb_false_r.
Qed.

Lemma kind_name_in_names (k : FrameSpec.kind) : FrameSpec.kind_name k ∈ names.
Proof. unfold names. destruct k; set_solver. Qed.

Lemma kind_name_CO2 (k : FrameSpec.kind) :
  String.eqb (FrameSpec.kind_name k) "CO2"
  = match k with FrameSpec.CO2 => true | FrameSpec.Temperature => false end.
Proof. by destruct k. Qed.

Lemma init_well_formed (c : ConfigFile) : well_formed (init c).1.
Proof.
  split; [cbn; unfold IGNORE_N_MEASUREMENTS; lia|].
  cbn [init fst values foldl MEASUREMENTS snd name].
  rewrite !dom_insert_L, dom_empty_L. unfold names. set_solver.
Qed.

Lemma set_counter_well_formed (self : ZyTemp) :
  well_formed self -> 0 < measurements_to_ignore self ->
  well_formed (set_measurements_to_ignore self (measurements_to_ignore self - 1)).
Proof. intros [H0 Hd] Hpos. split; cbn; [lia | exact Hd]. Qed.

Lemma publish_in_pass (ev ev_update : list event) (msg : message) (t : string)
    (p : gmap string pyval) :
  (forall t p, MqttPublish t p ∉ ev) ->
  MqttPublish t p ∈ (ev ++ [Log DEBUG msg]) ++ ev_update ++ [MqttRun] ->
  MqttPublish t p ∈ ev_update.
Proof.
  intros Hev Hin.
  rewrite !elem_of_app, !list_elem_of_singleton in Hin.
  destruct Hin as [[Hin|Hin]|[Hin|Hin]]; try discriminate Hin; [|exact Hin].
  by destruct (Hev t p).
Qed.

(** One pass of the loop on an 8-byte frame, from a well-formed session
    object. *)
Lemma iteration_summary (self : ZyTemp) (raw : list Z) :
  length raw = 8%nat -> well_formed self ->
  exists self' ev,
    run_iteration self (ReadData raw) = (self', ev, Continue)
    /\ well_formed self'
    /\ cfg self' = cfg self
    /\ measurements_to_ignore self'
       = (if FrameSpec.is_co2 raw && (0 <? measurements_to_ignore self)
          then measurements_to_ignore self - 1
          else measurements_to_ignore self)
    /\ count is_pump ev = (if FrameSpec.is_decoded raw then 1 else 0)%nat
    /\ (forall t p, MqttPublish t p ∈ ev -> dom p = names /\ complete p)
    /\ (FrameSpec.is_decoded raw = false -> self' = self).
Proof.
  intros Hlen Hwf. rewrite (run_iteration_frame self raw Hlen).
  destruct (transform_log_quiet raw) as (Hq1 & Hq2 & Hq3).
  unfold iteration_on_frame, FrameSpec.is_co2, FrameSpec.is_decoded,
    FrameSpec.decoded_kind.
  destruct (FrameSpec.validate raw) as [frame|].
  - destruct (FrameSpec.kind_of_tag (TransformSpec.at_ frame 0)) as [k|].
    + destruct (Z.ltb_spec 0 (measurements_to_ignore self)) as [Hpos|Hzero].
      * rewrite (gate_ignoring self _ _ _ _ Hpos), kind_name_CO2.
        eexists _, _. split; [reflexivity|].
        split; [destruct k; [exact Hwf | by apply set_counter_well_formed]|].
        split; [by destruct k|].
        split; [by destruct k|].
        split; [rewrite !count_app, Hq1; reflexivity|].
        split; [|discriminate].
        intros t p Hp.
        apply (publish_in_pass _ [] _ t p Hq3) in Hp. inversion Hp.
      * assert (H0 : measurements_to_ignore self = 0) by (destruct Hwf; lia).
        rewrite (gate_admitting self _ _ _ _ H0).
        destruct (update_facts self (FrameSpec.kind_name k)
                    (FrameSpec.convert k
                       (Z.lor (Z.shiftl (TransformSpec.at_ frame 1) 8)
                              (TransformSpec.at_ frame 2))))
          as (self' & evu & -> & Hcfg & Hm & Hdom & Hpump & Hpub).
        { destruct Hwf as [_ ->]. apply kind_name_in_names. }
        exists self', (((FrameSpec.transform_log raw)
                          ++ [Log DEBUG (MsgReading (FrameSpec.kind_name k)
                                           (FrameSpec.convert k
                                              (Z.lor (Z.shiftl (TransformSpec.at_ frame 1) 8)
                                                     (TransformSpec.at_ frame 2)))
                                           (FrameSpec.kind_unit k) false)])
                         ++ evu ++ [MqttRun]).
        split; [reflexivity|].
        split; [split; [lia | rewrite Hdom; apply Hwf]|].
        split; [exact Hcfg|].
        split; [rewrite Hm, H0; by destruct k|].
        split; [rewrite !count_app, Hq1, Hpump; reflexivity|].
        split; [|discriminate].
        intros t p Hp. apply (publish_in_pass _ _ _ t p Hq3) in Hp.
        destruct (Hpub t p Hp) as [-> Hc]. split; [|exact Hc].
        rewrite Hdom. apply Hwf.
    + eexists _, _. split; [reflexivity|].
      split; [exact Hwf|]. do 2 (split; [reflexivity|]).
      split; [rewrite count_app, Hq1; reflexivity|].
      split; [|reflexivity].
      intros t p Hp. rewrite elem_of_app, list_elem_of_singleton in Hp.
      destruct Hp as [Hp|Hp]; [by destruct (Hq3 t p) | discriminate Hp].
  - eexists _, _. split; [reflexivity|].
    split; [exact Hwf|]. do 2 (split; [reflexivity|]).
    split; [rewrite count_app, Hq1; reflexivity|].
    split; [|reflexivity].
    intros t p Hp. rewrite elem_of_app, list_elem_of_singleton in Hp.
    destruct Hp as [Hp|Hp]; [by destruct (Hq3 t p) | discriminate Hp].
Qed.

(** The loop on a sequence of 8-byte frames: it never leaves the loop, the
    counter goes down by one per CO2 reading until it is 0, [self.m.run] is
    called once per decoded frame, and every published snapshot is
    complete. *)
Lemma run_loop_frames (frames : list (list Z)) (self : ZyTemp) :
  well_formed self ->
  Forall (fun f => length f = 8%nat) frames ->
  exists self' ev,
    run_loop self (map ReadData frames) = (self', ev, Blocked)
    /\ well_formed self'
    /\ cfg self' = cfg self
    /\ measurements_to_ignore self'
       = Z.max 0 (measurements_to_ignore self
                  - Z.of_nat (FrameSpec.co2_readings frames))
    /\ count is_pump ev = FrameSpec.decoded_readings frames
    /\ (forall t p, MqttPublish t p ∈ ev -> dom p = names /\ complete p).
Proof.
  revert self. induction frames as [|raw frames IH]; intros self Hwf Hall.
  - exists self, []. split; [reflexivity|]. split; [exact Hwf|].
    split; [reflexivity|].
    split; [destruct Hwf; cbn; lia|]. split; [reflexivity|].
    intros t p Hp. inversion Hp.
  - apply Forall_cons in Hall as [Hlen Hall].
    destruct (iteration_summary self raw Hlen Hwf)
      as (self1 & ev1 & Hit & Hwf1 & Hcfg1 & Hm1 & Hp1 & Hpub1 & _).
    destruct (IH self1 Hwf1 Hall)
      as (self2 & ev2 & Hloop & Hwf2 & Hcfg2 & Hm2 & Hp2 & Hpub2).
    exists self2, (ev1 ++ ev2).
    split; [cbn [map run_loop]; by rewrite Hit, Hloop|].
    split; [exact Hwf2|]. split; [congruence|].
    split; [|split].
    + rewrite Hm2, Hm1. unfold FrameSpec.co2_readings. cbn [List.filter].
      destruct Hwf as [H0 _].
      destruct (FrameSpec.is_co2 raw); cbn [andb length];
        [destruct (Z.ltb_spec 0 (measurements_to_ignore self))|]; lia.
    + rewrite count_app, Hp1, Hp2. unfold FrameSpec.decoded_readings.
      cbn [List.filter]. by destruct (FrameSpec.is_decoded raw).
    + intros t p Hp. apply elem_of_app in Hp as [Hp|Hp]; eauto.
Qed.

(** ** C4: the snapshot cache *)

(** C4: on a name the cache holds, [update] stores and publishes nothing
    when the stored value equals the new one; otherwise it stores the new
    value and publishes the whole mapping exactly when no entry is [None]
    then. So whatever it publishes is complete, it publishes only after a
    change, and once both names have a value every change to another value
    publishes the mapping of both. Equality is Python's: [None] equals only
    [None], so a first reading is always stored; two integers are equal when
    they are the same integer; two floats when [==] of binary64 says so. *)
Theorem snapshot_cache (self : ZyTemp) (key : string) (value old : pyval) :
  values self !! key = Some old ->
  let d := <[key:=value]> (values self) in
  (py_eq old value = true -> update self key value = Some (self, []))
  /\ (py_eq old value = false ->
      (complete d ->
       update self key value
       = Some (set_values self d, [MqttPublish (mqtt_topic (cfg self)) d]))
      /\ (~ complete d -> update self key value = Some (set_values self d, [])))
  /\ (forall self' ev t p,
        update self key value = Some (self', ev) -> MqttPublish t p ∈ ev ->
        py_eq old value = false /\ p = values self' /\ complete p)
  /\ (dom (values self) = names -> complete (values self) ->
      value <> PyNone -> py_eq old value = false ->
      update self key value
      = Some (set_values self d, [MqttPublish (mqtt_topic (cfg self)) d])
      /\ dom d = names /\ complete d)
  /\ (old = PyNone -> value <> PyNone ->
      exists ev,
        update self key value = Some (set_values self d, ev)
        /\ d !! key = Some value)
  /\ (forall a b, old = PyInt a -> value = PyInt b ->
        (py_eq old value = true <-> a = b))
  /\ (forall a b, old = PyFloat a -> value = PyFloat b ->
        py_eq old value = PrimFloat.eqb a b)
  /\ (old <> PyNone -> value = PyNone -> py_eq old value = false).
Proof.
  intros Hold d. pose proof (update_present self key value old Hold) as Hu.
  cbn zeta in Hu. fold d in Hu.
  split; [|split; [|split; [|split; [|split; [|split; [|split]]]]]].
  - intros Heq. by rewrite Hu, Heq.
  - intros Hne. rewrite Hu, Hne. split.
    + intros Hc. apply any_none_false in Hc. by rewrite Hc.
    + intros Hc. destruct (any_none d) eqn:E; [reflexivity|].
      by apply any_none_false in E.
  - intros self' ev t p Hup Hp. rewrite Hu in Hup.
    destruct (py_eq old value).
    + injection Hup as <- <-. inversion Hp.
    + split; [reflexivity|]. destruct (any_none d) eqn:E.
      * injection Hup as <- <-. inversion Hp.
      * injection Hup as <- <-.
        apply list_elem_of_singleton in Hp. injection Hp as -> ->.
        split; [reflexivity|]. by apply any_none_false.
  - intros Hdom Hc Hv Hne.
    assert (Hcd : complete d) by by apply complete_insert.
    split; [|split; [|exact Hcd]].
    + rewrite Hu, Hne. apply any_none_false in Hcd. by rewrite Hcd.
    + subst d. rewrite dom_insert_present by by rewrite Hold. exact Hdom.
  - intros -> Hv. rewrite Hu.
    assert (Hne : py_eq PyNone value = false) by by destruct value.
    rewrite Hne. eexists. split; [reflexivity|]. apply lookup_insert_eq.
  - intros a b -> ->. cbn [py_eq]. apply Z.eqb_eq.
  - by intros a b -> ->.
  - intros Hn ->. by destruct old.
Qed.

(** A CO2 reading arriving in a cache that holds a Temperature reading is
    stored and the snapshot of both is published; the same reading in a
    fresh cache is stored and nothing is published. *)
Lemma snapshot_cache_witness :
  update Sample_warm "CO2" (PyInt 600)
  = Some (set_values Sample_warm
            (<["CO2"%string := PyInt 600]> (values Sample_warm)),
          [MqttPublish "sensors/co2"
             (<["CO2"%string := PyInt 600]> (values Sample_warm))])
  /\ update Sample_settled "CO2" (PyInt 600)
     = Some (set_values Sample_settled
               (<["CO2"%string := PyInt 600]> (values Sample_settled)),
             []).
Proof.
  split.
  - destruct (snapshot_cache Sample_warm "CO2" (PyInt 600) PyNone eq_refl)
      as (_ & H & _).
    destruct (H eq_refl) as [Hpub _]. apply Hpub.
    apply any_none_false. vm_compute. reflexivity.
  - destruct (snapshot_cache Sample_settled "CO2" (PyInt 600) PyNone eq_refl)
      as (_ & H & _).
    destruct (H eq_refl) as [_ Hquiet]. apply Hquiet.
    intros Hc. apply any_none_false in Hc. vm_compute in Hc. discriminate Hc.
Defined.

(** In a session every snapshot handed to [self.m.publish] by the loop holds
    both names and no [None]. *)
Lemma published_snapshots_complete (c : ConfigFile) (frames : list (list Z)) :
  Forall (fun f => length f = 8%nat) frames ->
  forall t p,
    MqttPublish t p ∈ (run_loop (init c).1 (map ReadData frames)).1.2 ->
    dom p = names /\ complete p.
Proof.
  intros Hall t p.
  destruct (run_loop_frames frames (init c).1 (init_well_formed c) Hall)
    as (self' & ev & -> & _ & _ & _ & _ & Hpub).
  apply Hpub.
Qed.

(** ** C5: the calibration gate *)

(** While the counter is positive a pass of the loop leaves the cache alone
    and publishes nothing. *)
Lemma iteration_suppressed (self : ZyTemp) (raw : list Z) :
  length raw = 8%nat -> 0 < measurements_to_ignore self ->
  exists self' ev,
    run_iteration self (ReadData raw) = (self', ev, Continue)
    /\ values self' = values self
    /\ count is_publish ev = 0%nat.
Proof.
  intros Hlen Hpos. rewrite (run_iteration_frame self raw Hlen).
  destruct (transform_log_quiet raw) as (_ & Hq & _).
  unfold iteration_on_frame.
  destruct (FrameSpec.validate raw) as [frame|].
  - destruct (FrameSpec.kind_of_tag _) as [k|].
    + rewrite (gate_ignoring self _ _ _ _ Hpos).
      eexists _, _. split; [reflexivity|].
      split; [by destruct (String.eqb _ _)|].
      by rewrite !count_app, Hq.
    + eexists _, _. split; [reflexivity|]. split; [reflexivity|].
      by rewrite count_app, Hq.
  - eexists _, _. split; [reflexivity|]. split; [reflexivity|].
    by rewrite count_app, Hq.
Qed.

(** Once the counter is 0 a decoded reading is handed to [update], and the
    counter stays 0. *)
Lemma iteration_admitted (self : ZyTemp) (raw frame : list Z) (k : FrameSpec.kind) :
  length raw = 8%nat -> well_formed self -> measurements_to_ignore self = 0 ->
  FrameSpec.validate raw = FrameSpec.Accepted frame ->
  FrameSpec.kind_of_tag (TransformSpec.at_ frame 0) = Some k ->
  let reading :=
    FrameSpec.convert k
      (Z.lor (Z.shiftl (TransformSpec.at_ frame 1) 8) (TransformSpec.at_ frame 2)) in
  exists self' ev_update,
    update self (FrameSpec.kind_name k) reading = Some (self', ev_update)
    /\ run_iteration self (ReadData raw)
       = (self',
          (FrameSpec.transform_log raw
             ++ [Log DEBUG (MsgReading (FrameSpec.kind_name k) reading
                              (FrameSpec.kind_unit k) false)])
            ++ ev_update ++ [MqttRun],
          Continue)
    /\ measurements_to_ignore self' = 0.
Proof.
  intros Hlen Hwf H0 Hv Hk reading.
  rewrite (run_iteration_frame self raw Hlen).
  unfold iteration_on_frame. rewrite Hv, Hk. fold reading.
  rewrite (gate_admitting self _ _ _ _ H0).
  destruct (update_facts self (FrameSpec.kind_name k) reading)
    as (self' & evu & -> & _ & Hm & _).
  { destruct Hwf as [_ ->]. apply kind_name_in_names. }
  exists self', evu. split; [reflexivity|]. split; [reflexivity|]. congruence.
Qed.

(** C5: a session starts with the counter at 5. While the counter is
    positive, a pass of the loop on any frame leaves the cache alone and
    publishes nothing. A pass takes one off the counter exactly when the
    frame decodes to a CO2 reading and the counter is positive, so the
    counter never goes below 0; after a sequence of frames it is
    [max 0 (5 - n)] for [n] the CO2 readings among them, hence 0 exactly from
    the 5th CO2 reading on. At 0 every decoded reading is handed to [update]
    and the counter stays 0. *)
Theorem calibration_gate :
  (forall c, measurements_to_ignore (init c).1 = 5)
  /\ (forall self raw,
        length raw = 8%nat -> 0 < measurements_to_ignore self ->
        exists self' ev,
          run_iteration self (ReadData raw) = (self', ev, Continue)
          /\ values self' = values self
          /\ count is_publish ev = 0%nat)
  /\ (forall self raw,
        length raw = 8%nat -> well_formed self ->
        exists self' ev,
          run_iteration self (ReadData raw) = (self', ev, Continue)
          /\ 0 <= measurements_to_ignore self'
          /\ measurements_to_ignore self'
             = (if FrameSpec.is_co2 raw && (0 <? measurements_to_ignore self)
                then measurements_to_ignore self - 1
                else measurements_to_ignore self))
  /\ (forall c frames,
        Forall (fun f => length f = 8%nat) frames ->
        exists self' ev,
          run_loop (init c).1 (map ReadData frames) = (self', ev, Blocked)
          /\ measurements_to_ignore self'
             = Z.max 0 (5 - Z.of_nat (FrameSpec.co2_readings frames))
          /\ (measurements_to_ignore self' = 0
              <-> (5 <= FrameSpec.co2_readings frames)%nat))
  /\ (forall self raw frame k,
        length raw = 8%nat -> well_formed self ->
        measurements_to_ignore self = 0 ->
        FrameSpec.validate raw = FrameSpec.Accepted frame ->
        FrameSpec.kind_of_tag (TransformSpec.at_ frame 0) = Some k ->
        let reading :=
          FrameSpec.convert k
            (Z.lor (Z.shiftl (TransformSpec.at_ frame 1) 8)
                   (TransformSpec.at_ frame 2)) in
        exists self' ev_update,
          update self (FrameSpec.kind_name k) reading = Some (self', ev_update)
          /\ run_iteration self (ReadData raw)
             = (self',
                (FrameSpec.transform_log raw
                   ++ [Log DEBUG (MsgReading (FrameSpec.kind_name k) reading
                                    (FrameSpec.kind_unit k) false)])
                  ++ ev_update ++ [MqttRun],
                Continue)
          /\ measurements_to_ignore self' = 0).
Proof.
  split; [reflexivity|].
  split; [exact iteration_suppressed|].
  split; [|split; [|exact iteration_admitted]].
  - intros self raw Hlen Hwf.
    destruct (iteration_summary self raw Hlen Hwf)
      as (self' & ev & Hit & Hwf' & _ & Hm & _).
    exists self', ev. split; [exact Hit|]. split; [apply Hwf' | exact Hm].
  - intros c frames Hall.
    destruct (run_loop_frames frames (init c).1 (init_well_formed c) Hall)
      as (self' & ev & Hloop & _ & _ & Hm & _).
    exists self', ev. split; [exact Hloop|].
    change (measurements_to_ignore (init c).1) with 5 in Hm.
    split; [exact Hm|]. rewrite Hm. lia.
Qed.

(** The counter along a sample session: five CO2 frames bring it to 0, and
    the Temperature frame in between does not count. *)
Lemma calibration_gate_sample :
  measurements_to_ignore
    (run_loop Sample.fresh
       (map ReadData [Sample.co2; Sample.co2; Sample.temperature;
                      Sample.co2; Sample.co2])).1.1 = 1
  /\ measurements_to_ignore
       (run_loop Sample.fresh
          (map ReadData [Sample.co2; Sample.co2; Sample.temperature;
                         Sample.co2; Sample.co2; Sample.co2])).1.1 = 0.
Proof. split; vm_compute; reflexivity. Qed.

(** ** C7: recoverable and fatal errors *)

Lemma transform_log_logs (raw : list Z) :
  Forall is_log (FrameSpec.transform_log raw).
Proof.
  unfold FrameSpec.transform_log.
  destruct (_ =? _); repeat constructor. by eexists _, _.
Qed.

(** C7: a pass on an 8-byte frame with a checksum mismatch or with a tag
    outside the table only writes to the log, leaves the session object
    (cache and counter) as it was and goes on with the next read; a read
    that raises [OSError] and a read of zero bytes end the loop at once,
    whatever reads would follow. *)
Theorem error_classes (self : ZyTemp) (raw : list Z) (rest : list read_result) :
  length raw = 8%nat ->
  FrameSpec.validate raw = FrameSpec.ChecksumError
  \/ (exists frame,
        FrameSpec.validate raw = FrameSpec.Accepted frame
        /\ table_lookup MEASUREMENTS (TransformSpec.at_ frame 0) = None) ->
  (exists ev,
     run_iteration self (ReadData raw) = (self, ev, Continue)
     /\ Forall is_log ev
     /\ run_loop self (ReadData raw :: rest)
        = (let '(self', ev', st) := run_loop self rest in (self', ev ++ ev', st)))
  /\ run_loop self (ReadOSError :: rest) = (self, [Log ERROR MsgOSError], Returned)
  /\ run_loop self (ReadData [] :: rest)
     = (self, [Log ERROR MsgReadError; HidClose], Returned).
Proof.
  intros Hlen Hbad. split; [|split; reflexivity].
  assert (Hit : exists ev,
             run_iteration self (ReadData raw) = (self, ev, Continue)
             /\ Forall is_log ev).
  { rewrite (run_iteration_frame self raw Hlen). unfold iteration_on_frame.
    destruct Hbad as [->|(frame & -> & Hnone)].
    - eexists. split; [reflexivity|].
      apply Forall_app. split; [apply transform_log_logs|].
      repeat constructor. by eexists _, _.
    - rewrite table_lookup_kind in Hnone.
      destruct (FrameSpec.kind_of_tag _) as [[]|]; try discriminate Hnone.
      eexists. split; [reflexivity|].
      apply Forall_app. split; [apply transform_log_logs|].
      repeat constructor. by eexists _, _. }
  destruct Hit as (ev & Hit & Hlog).
  exists ev. split; [exact Hit|]. split; [exact Hlog|].
  cbn [run_loop]. rewrite Hit. by destruct (run_loop self rest) as [[? ?] ?].
Qed.

Lemma error_classes_witness :
  run_loop Sample.fresh [ReadData Sample.bad_checksum; ReadOSError; ReadData Sample.co2]
  = (Sample.fresh, [Log ERROR MsgChecksumError; Log ERROR MsgOSError], Returned).
Proof.
  destruct (error_classes Sample.fresh Sample.bad_checksum
              [ReadOSError; ReadData Sample.co2] eq_refl (or_introl eq_refl))
    as [(ev & Hit & _ & Hloop) _].
  rewrite Hloop. injection Hit as <-. reflexivity.
Defined.

(** ** C8: closing the device handle *)

Lemma discovery_no_close (self : ZyTemp) : count is_close (discovery self) = 0%nat.
Proof.
  unfold discovery. destruct (_ =? _)%nat; reflexivity.
Qed.

(** C8 does not hold of the code: when the first read raises [OSError],
    [run] returns without a call of [self.h.close()], and the handle is
    closed only by [__del__]; when the first read returns no bytes, [run]
    closes the handle and [__del__] closes it a second time. Neither [run]
    alone nor the session with its destructor closes the handle exactly once
    on both paths. *)
Theorem close_calls (c : ConfigFile) (rest : list read_result) :
  count is_close (run (init c).1 (ReadOSError :: rest)).1.2 = 0%nat
  /\ count is_close (run (init c).1 (ReadData [] :: rest)).1.2 = 1%nat
  /\ count is_close (session c (ReadOSError :: rest)) = 1%nat
  /\ count is_close (session c (ReadData [] :: rest)) = 2%nat.
Proof.
  unfold session, run. cbn [init run_loop run_iteration fst snd del].
  rewrite !count_app, !discovery_no_close. by repeat split.
Qed.

(** ** C9: the calls of [self.m.run] *)

(** C9, as the claim has it, fails: a frame with a checksum mismatch is
    received and dropped, the loop goes on, and [self.m.run] was not
    called. *)
Lemma no_pump_on_discarded_frame :
  run_loop Sample.fresh [ReadData Sample.bad_checksum]
  = (Sample.fresh, [Log ERROR MsgChecksumError], Blocked)
  /\ count is_pump (run_loop Sample.fresh [ReadData Sample.bad_checksum]).1.2
     <> length [Sample.bad_checksum].
Proof. split; [reflexivity | discriminate]. Qed.

(** While the counter is positive a decoded reading is logged as ignored and
    [self.m.run] is the call that follows. *)
Lemma iteration_ignored (self : ZyTemp) (raw frame : list Z) (k : FrameSpec.kind) :
  length raw = 8%nat -> 0 < measurements_to_ignore self ->
  FrameSpec.validate raw = FrameSpec.Accepted frame ->
  FrameSpec.kind_of_tag (TransformSpec.at_ frame 0) = Some k ->
  let reading :=
    FrameSpec.convert k
      (Z.lor (Z.shiftl (TransformSpec.at_ frame 1) 8) (TransformSpec.at_ frame 2)) in
  exists self',
    run_iteration self (ReadData raw)
    = (self',
       (FrameSpec.transform_log raw
          ++ [Log DEBUG (MsgReading (FrameSpec.kind_name k) reading
                           (FrameSpec.kind_unit k) true)])
         ++ [MqttRun],
       Continue).
Proof.
  intros Hlen Hpos Hv Hk reading.
  rewrite (run_iteration_frame self raw Hlen).
  unfold iteration_on_frame. rewrite Hv, Hk. fold reading.
  rewrite (gate_ignoring self _ _ _ _ Hpos). by eexists.
Qed.

Lemma Sample_warm_well_formed : well_formed Sample_warm.
Proof.
  split; [apply Z.le_refl|].
  unfold Sample_warm. cbn [values set_values].
  rewrite dom_insert_present by (vm_compute; eauto).
  apply (init_well_formed Sample.config).
Qed.

(** C9, as the code has it: on 8-byte frames [self.m.run] is called exactly
    once in a pass whose frame passes the checksum and has a tag of the
    table, whether or not the reading is then ignored, and not at all in a
    pass that drops its frame; over a sequence of frames it is called once
    per decoded frame. In such a pass it is the last call: it comes after
    the log line of the reading and, when the reading is not ignored, after
    the calls [update] makes, the publication of the snapshot among them. *)
Theorem pump_once_per_decoded_frame (self : ZyTemp) (frames : list (list Z)) :
  well_formed self ->
  Forall (fun f => length f = 8%nat) frames ->
  (forall raw, length raw = 8%nat ->
     exists self' ev,
       run_iteration self (ReadData raw) = (self', ev, Continue)
       /\ count is_pump ev = (if FrameSpec.is_decoded raw then 1 else 0)%nat)
  /\ (exists self' ev,
        run_loop self (map ReadData frames) = (self', ev, Blocked)
        /\ count is_pump ev = FrameSpec.decoded_readings frames)
  /\ (forall raw frame k,
        length raw = 8%nat ->
        FrameSpec.validate raw = FrameSpec.Accepted frame ->
        FrameSpec.kind_of_tag (TransformSpec.at_ frame 0) = Some k ->
        let reading :=
          FrameSpec.convert k
            (Z.lor (Z.shiftl (TransformSpec.at_ frame 1) 8)
                   (TransformSpec.at_ frame 2)) in
        (0 < measurements_to_ignore self ->
         exists self',
           run_iteration self (ReadData raw)
           = (self',
              (FrameSpec.transform_log raw
                 ++ [Log DEBUG (MsgReading (FrameSpec.kind_name k) reading
                                  (FrameSpec.kind_unit k) true)])
                ++ [MqttRun],
              Continue))
        /\ (measurements_to_ignore self = 0 ->
            exists self' ev_update,
              update self (FrameSpec.kind_name k) reading = Some (self', ev_update)
              /\ count is_pump ev_update = 0%nat
              /\ run_iteration self (ReadData raw)
                 = (self',
                    (FrameSpec.transform_log raw
                       ++ [Log DEBUG (MsgReading (FrameSpec.kind_name k) reading
                                        (FrameSpec.kind_unit k) false)])
                      ++ ev_update ++ [MqttRun],
                    Continue))).
Proof.
  intros Hwf Hall. split; [|split].
  - intros raw Hlen.
    destruct (iteration_summary self raw Hlen Hwf)
      as (self' & ev & Hit & _ & _ & _ & Hp & _).
    by exists self', ev.
  - destruct (run_loop_frames frames self Hwf Hall)
      as (self' & ev & Hloop & _ & _ & _ & Hp & _).
    by exists self', ev.
  - intros raw frame k Hlen Hv Hk reading. split.
    + intros Hpos. by apply iteration_ignored.
    + intros H0.
      destruct (iteration_admitted self raw frame k Hlen Hwf H0 Hv Hk)
        as (self' & evu & Hup & Hit & _).
      exists self', evu. split; [exact Hup|]. split; [|exact Hit].
      destruct (update_facts self (FrameSpec.kind_name k) reading)
        as (self2 & evu2 & Hup2 & _ & _ & _ & Hpump & _).
      { destruct Hwf as [_ ->]. apply kind_name_in_names. }
      fold reading in Hup. rewrite Hup in Hup2. by injection Hup2 as _ <-.
Qed.

(** Four frames of which two decode give two calls; and a CO2 frame arriving
    in a cache that holds a Temperature reading is logged, published and
    only then followed by [self.m.run]. *)
Lemma pump_once_per_decoded_frame_witness :
  count is_pump
    (run_loop Sample_warm
       (map ReadData [Sample.bad_checksum; Sample.co2; Sample.unknown_tag;
                      Sample.temperature_encrypted])).1.2 = 2%nat
  /\ exists self',
       run_iteration Sample_warm (ReadData Sample.co2)
       = (self',
          [Log DEBUG (MsgReading "CO2" (PyInt 600) "ppm" false);
           MqttPublish "sensors/co2"
             (<["CO2"%string := PyInt 600]> (values Sample_warm));
           MqttRun],
          Continue).
Proof.
  destruct (pump_once_per_decoded_frame Sample_warm
              [Sample.bad_checksum; Sample.co2; Sample.unknown_tag;
               Sample.temperature_encrypted]
              Sample_warm_well_formed
              ltac:(repeat constructor))
    as (_ & (self' & ev & Hloop & Hp) & Horder).
  split; [rewrite Hloop; exact Hp|].
  destruct (Horder Sample.co2 Sample.co2 FrameSpec.CO2 eq_refl eq_refl eq_refl)
    as [_ Hadmit].
  destruct (Hadmit eq_refl) as (self1 & evu & Hup & _ & Hit).
  assert (Hu : update Sample_warm "CO2" (PyInt 600)
               = Some (set_values Sample_warm
                         (<["CO2"%string := PyInt 600]> (values Sample_warm)),
                       [MqttPublish "sensors/co2"
                          (<["CO2"%string := PyInt 600]> (values Sample_warm))]))
    by (vm_compute; reflexivity).
  change (update Sample_warm "CO2" (PyInt 600) = Some (self1, evu)) in Hup.
  rewrite Hu in Hup. injection Hup as <- <-.
  eexists. exact Hit.
Defined.

(** * Further properties of the code *)

(** ** [decrypt] on lists that are not 8 long *)

Lemma decrypt_short_data (key data : list Z) :
  (length data < 8)%nat -> Decrypt.decrypt key data = None.
Proof.
  intros H.
  do 8 (destruct data as [|? data]; [reflexivity|]).
  cbn in H. lia.
Qed.

Lemma at_least_8 (l : list Z) :
  (8 <= length l)%nat ->
  exists a0 a1 a2 a3 a4 a5 a6 a7 tl, l = a0 :: a1 :: a2 :: a3 :: a4 :: a5 :: a6 :: a7 :: tl.
Proof.
  intros H.
  do 8 (destruct l as [|? l]; [cbn in H; lia|]).
  by do 9 eexists.
Qed.

Lemma decrypt_short_key (key data : list Z) :
  (8 <= length data)%nat -> (length key < 8)%nat ->
  Decrypt.decrypt key data = None.
Proof.
  intros Hd Hk.
  destruct (at_least_8 data Hd)
    as (a0 & a1 & a2 & a3 & a4 & a5 & a6 & a7 & tl & ->).
  do 8 (destruct key as [|? key]; [reflexivity|]).
  cbn in Hk. lia.
Qed.

Lemma decrypt_long (key data : list Z) :
  (8 <= length key)%nat -> (8 <= length data)%nat ->
  Decrypt.decrypt key data
  = Some (TransformSpec.transform (take 8 key) (take 8 data)).
Proof.
  intros Hk Hd.
  destruct (at_least_8 data Hd)
    as (a0 & a1 & a2 & a3 & a4 & a5 & a6 & a7 & tl & ->).
  destruct (at_least_8 key Hk)
    as (k0 & k1 & k2 & k3 & k4 & k5 & k6 & k7 & ktl & ->).
  reflexivity.
Qed.

(** X1: [decrypt] raises [IndexError] exactly when the data or the key has
    fewer than 8 elements. *)
Theorem decrypt_index_error (key data : list Z) :
  Decrypt.decrypt key data = None
  <-> (length data < 8)%nat \/ (length key < 8)%nat.
Proof.
  split.
  - intros Hnone.
    destruct (Nat.lt_ge_cases (length data) 8) as [Hd|Hd]; [by left|].
    destruct (Nat.lt_ge_cases (length key) 8) as [Hk|Hk]; [by right|].
    rewrite (decrypt_long key data Hk Hd) in Hnone. discriminate Hnone.
  - intros [Hd|Hk]; [by apply decrypt_short_data|].
    destruct (Nat.lt_ge_cases (length data) 8) as [Hd|Hd].
    + by apply decrypt_short_data.
    + by apply decrypt_short_key.
Qed.

(** X2: on longer lists [decrypt] reads the first 8 elements of the key and
    of the data only: the result is that of the two 8-element prefixes, 8
    bytes again. *)
Theorem decrypt_reads_first_8 (key data : list Z) :
  (8 <= length key)%nat -> (8 <= length data)%nat ->
  Decrypt.decrypt key data = Decrypt.decrypt (take 8 key) (take 8 data)
  /\ exists out, Decrypt.decrypt key data = Some out /\ is_block out.
Proof.
  intros Hk Hd. rewrite (decrypt_long key data Hk Hd). split.
  - rewrite decrypt_transform; [reflexivity | |]; rewrite length_take; lia.
  - eexists. split; [reflexivity|]. apply transform_is_block.
Qed.

Lemma decrypt_reads_first_8_witness :
  Decrypt.decrypt (KEY ++ [1; 2]) [149; 228; 246; 32; 1; 70; 191; 122; 7; 7; 7]
  = Decrypt.decrypt KEY [149; 228; 246; 32; 1; 70; 191; 122].
Proof.
  apply (decrypt_reads_first_8 (KEY ++ [1; 2])
           [149; 228; 246; 32; 1; 70; 191; 122; 7; 7; 7]); cbn; lia.
Defined.

Lemma decrypt_surjective_witness :
  exists data, is_block data
               /\ Decrypt.decrypt KEY data = Some Sample.temperature.
Proof.
  apply decrypt_surjective.
  split; [reflexivity | repeat constructor; unfold is_byte; lia].
Defined.

(** ** The checksum *)

Lemma checksum_block (a b c : Z) (tl : list Z) :
  checksum (a :: b :: c :: tl) = (a + b + c) mod 256.
Proof.
  unfold checksum. cbn [take foldl]. rewrite Z.add_0_l.
  change 0xff with (Z.ones 8). by rewrite Z.land_ones by lia.
Qed.

Lemma mod_256_one_byte (x y rest : Z) :
  is_byte x -> is_byte y ->
  (x + rest) mod 256 = (y + rest) mod 256 -> x = y.
Proof.
  unfold is_byte. intros Hx Hy Heq.
  pose proof (Z.div_mod (x + rest) 256 ltac:(lia)) as H1.
  pose proof (Z.div_mod (y + rest) 256 ltac:(lia)) as H2.
  rewrite Heq in H1. lia.
Qed.

(** X4: when a block of bytes passes the checksum test, the same block with
    one of bytes 0 to 2 replaced by a different byte, byte 3 as it was, fails
    it: the frame is reported and dropped. *)
Theorem checksum_detects_change (self : ZyTemp) (ev : list event)
    (r : list Z) (i : nat) (old x : Z) :
  is_block r -> (i < 3)%nat -> r !! i = Some old ->
  is_byte x -> x <> old ->
  r !! 3%nat = Some (checksum r) ->
  process_frame self ev (<[i:=x]> r)
  = (self, ev ++ [Log ERROR MsgChecksumError], Continue).
Proof.
  intros Hb Hi Hold Hx Hne Hsum. block_inv Hb.
  cbn [lookup list_lookup] in Hsum. injection Hsum as Hsum.
  rewrite checksum_block in Hsum.
  assert (Hbad : forall r', r' !! 3%nat = Some a2 -> checksum r' <> a2 ->
                 process_frame self ev r'
                 = (self, ev ++ [Log ERROR MsgChecksumError], Continue)).
  { intros r' Hr3 Hc. unfold process_frame, PyList.get. rewrite Hr3.
    by apply not_eq_sym, Z.eqb_neq in Hc as ->. }
  destruct i as [|[|[|i]]]; [| | |lia];
    cbn [lookup list_lookup] in Hold; injection Hold as <-;
    (apply Hbad; [reflexivity|]);
    cbn [insert list_insert]; rewrite checksum_block; intros Heq;
    apply Hne; rewrite Hsum in Heq.
  - apply (mod_256_one_byte x a (a0 + a1)); [assumption..|].
    by rewrite !Z.add_assoc.
  - apply (mod_256_one_byte x a0 (a + a1)); [assumption..|].
    by replace (x + (a + a1)) with (a + x + a1) by lia;
       replace (a0 + (a + a1)) with (a + a0 + a1) by lia.
  - apply (mod_256_one_byte x a1 (a + a0)); [assumption..|].
    by replace (x + (a + a0)) with (a + a0 + x) by lia;
       replace (a1 + (a + a0)) with (a + a0 + a1) by lia.
Qed.

Lemma checksum_detects_change_witness :
  process_frame Sample.fresh [] [0x50; 0x03; 0x58; 0xaa; 0x0d; 0; 0; 0]
  = (Sample.fresh, [Log ERROR MsgChecksumError], Continue).
Proof.
  apply (checksum_detects_change Sample.fresh [] Sample.co2 1 0x02 0x03);
    try reflexivity; try (unfold is_byte; lia).
  split; [reflexivity | repeat constructor; unfold is_byte; lia].
Defined.

(** ** Reads that are not 8 bytes long *)

(** X5: a read of 1 to 7 bytes that does not carry 0x0d at index 4 (so every
    read of 1 to 4 bytes) ends [run] with an [IndexError] that nothing
    catches; the session object is as before, and only the log may have been
    written to. *)
Theorem short_read_raises (self : ZyTemp) (r : list Z) (rest : list read_result) :
  r <> [] -> (length r < 8)%nat -> r !! 4%nat <> Some 0x0d ->
  exists ev,
    run_loop self (ReadData r :: rest) = (self, ev, Raised IndexError)
    /\ Forall is_log ev.
Proof.
  intros Hne Hlen H4.
  assert (Hit : exists ev,
             run_iteration self (ReadData r) = (self, ev, Raise IndexError)
             /\ Forall is_log ev).
  { destruct r as [|b0 [|b1 [|b2 [|b3 [|b4 tl]]]]]; [done|..];
      try (exists []; split; [reflexivity | constructor]).
    unfold run_iteration, PyList.get. cbn [lookup list_lookup] in *.
    destruct (Z.eqb_spec b4 13) as [->|_]; [done|]. cbn [negb].
    rewrite decrypt_short_data by exact Hlen.
    eexists. split; [reflexivity|]. repeat constructor. by eexists _, _. }
  destruct Hit as (ev & Hit & Hlog). exists ev.
  split; [|exact Hlog]. cbn [run_loop]. by rewrite Hit.
Qed.

Lemma short_read_raises_witness :
  exists ev,
    run_loop Sample.fresh [ReadData [0x50; 0x02; 0x58]; ReadData Sample.co2]
    = (Sample.fresh, ev, Raised IndexError)
    /\ Forall is_log ev.
Proof.
  apply short_read_raises; [discriminate | cbn; lia | discriminate].
Defined.

(** X6: when byte 4 of a read is 0x0d, nothing after byte 4 is looked at: the
    pass is the same whatever follows, also when fewer than 8 bytes were
    read. *)
Theorem plaintext_tail_unread (self : ZyTemp) (a0 a1 a2 a3 : Z) (tl tl' : list Z) :
  run_iteration self (ReadData (a0 :: a1 :: a2 :: a3 :: 0x0d :: tl))
  = run_iteration self (ReadData (a0 :: a1 :: a2 :: a3 :: 0x0d :: tl')).
Proof. reflexivity. Qed.

(** ** What the loop keeps on any sequence of reads *)

Lemma update_publish_topic (self self' : ZyTemp) (key : string) (value : pyval)
    (ev : list event) (t : string) (p : gmap string pyval) :
  update self key value = Some (self', ev) -> MqttPublish t p ∈ ev ->
  t = mqtt_topic (cfg self).
Proof.
  unfold update. destruct (values self !! key); [|discriminate].
  destruct (py_eq _ _); [intros [= <- <-] Hp; inversion Hp|].
  cbn [values set_values cfg].
  destruct (any_none _); intros [= <- <-] Hp; [inversion Hp|].
  apply list_elem_of_singleton in Hp. by injection Hp as -> _.
Qed.

Lemma pass_facts_stop (self : ZyTemp) (ev0 ev2 : list event) (c : control) :
  well_formed self -> Forall is_log ev2 -> c <> Return ->
  pass_facts self ev0 (self, ev0 ++ ev2, c).
Proof.
  intros Hwf Hlog Hc. exists ev2. cbn [fst snd].
  split; [reflexivity|]. split; [exact Hwf|]. split; [reflexivity|].
  split; [lia|]. rewrite Forall_forall in Hlog.
  split; [|split; [|exact Hc]].
  - intros t p Hp. by destruct (Hlog _ Hp) as (? & ? & ?).
  - intros Hp. by destruct (Hlog _ Hp) as (? & ? & ?).
Qed.

Lemma gate_facts (self : ZyTemp) (ev : list event) (m_name m_unit : string)
    (m_reading : pyval) :
  well_formed self -> m_name ∈ names ->
  pass_facts self ev (gate self ev m_name m_unit m_reading).
Proof.
  intros Hwf Hn.
  destruct (Z.ltb_spec 0 (measurements_to_ignore self)) as [Hpos|Hzero].
  - rewrite (gate_ignoring self _ _ _ _ Hpos), <- app_assoc.
    eexists. cbn [fst snd]. split; [reflexivity|].
    split; [destruct (String.eqb _ _);
            [by apply set_counter_well_formed | exact Hwf]|].
    split; [by destruct (String.eqb _ _)|].
    split; [destruct (String.eqb _ _); cbn; lia|].
    split; [|split; [|discriminate]]; try intros t p; intros Hp;
      rewrite elem_of_app, !list_elem_of_singleton in Hp;
      destruct Hp as [Hp|Hp]; discriminate Hp.
  - assert (H0 : measurements_to_ignore self = 0) by (destruct Hwf; lia).
    rewrite (gate_admitting self _ _ _ _ H0).
    destruct (update_facts self m_name m_reading)
      as (self' & evu & Hup & Hcfg & Hm & Hdom & _ & Hpub).
    { by destruct Hwf as [_ ->]. }
    rewrite Hup, <- app_assoc. eexists. cbn [fst snd].
    split; [reflexivity|].
    split; [split; [lia | rewrite Hdom; apply Hwf]|].
    split; [exact Hcfg|]. split; [lia|].
    split; [|split; [|discriminate]].
    + intros t p Hp. rewrite !elem_of_app, !list_elem_of_singleton in Hp.
      destruct Hp as [Hp|[Hp|Hp]]; [discriminate Hp | | discriminate Hp].
      split; [by eapply update_publish_topic|].
      destruct (Hpub t p Hp) as [-> Hc]. split; [|exact Hc].
      rewrite Hdom. apply Hwf.
    + intros Hp. rewrite !elem_of_app, !list_elem_of_singleton in Hp.
      destruct Hp as [Hp|[Hp|Hp]]; [discriminate Hp | | discriminate Hp].
      unfold update in Hup. destruct (values self !! m_name); [|discriminate].
      destruct (py_eq _ _); [injection Hup as <- <-; inversion Hp|].
      destruct (any_none _); injection Hup as <- <-; [inversion Hp|].
      apply list_elem_of_singleton in Hp. discriminate Hp.
Qed.

Lemma handle_measurement_facts (self : ZyTemp) (ev : list event) (r : list Z) :
  well_formed self -> pass_facts self ev (handle_measurement self ev r).
Proof.
  intros Hwf. unfold handle_measurement.
  destruct (PyList.get r 0) as [m_type|];
    [|rewrite <- (app_nil_r ev) at 2; by apply pass_facts_stop].
  destruct (PyList.get r 1) as [r1|];
    [|rewrite <- (app_nil_r ev) at 2; by apply pass_facts_stop].
  destruct (PyList.get r 2) as [r2|];
    [|rewrite <- (app_nil_r ev) at 2; by apply pass_facts_stop].
  rewrite table_lookup_kind.
  destruct (FrameSpec.kind_of_tag m_type) as [k|].
  - destruct k; apply gate_facts; try exact Hwf;
      [apply (kind_name_in_names FrameSpec.Temperature)
      |apply (kind_name_in_names FrameSpec.CO2)].
  - apply pass_facts_stop; [exact Hwf | | discriminate].
    repeat constructor. by eexists _, _.
Qed.

Lemma process_frame_facts (self : ZyTemp) (ev : list event) (r : list Z) :
  well_formed self -> pass_facts self ev (process_frame self ev r).
Proof.
  intros Hwf. unfold process_frame.
  destruct (PyList.get r 3) as [r3|];
    [|rewrite <- (app_nil_r ev) at 2; by apply pass_facts_stop].
  destruct (negb _); [|by apply handle_measurement_facts].
  apply pass_facts_stop; [exact Hwf | | discriminate].
  repeat constructor. by eexists _, _.
Qed.

Lemma count_close_absent (ev : list event) :
  HidClose ∉ ev -> count is_close ev = 0%nat.
Proof.
  unfold count. induction ev as [|e ev IH]; [reflexivity|].
  intros Hnot. rewrite not_elem_of_cons in Hnot. destruct Hnot as [Hne Hnot].
  rewrite filter_cons. destruct e; cbn; try (by apply IH). by destruct Hne.
Qed.

(** The facts of one pass, whatever the read gave. *)
Lemma run_iteration_facts (self : ZyTemp) (rd : read_result) :
  well_formed self ->
  well_formed (run_iteration self rd).1.1
  /\ cfg (run_iteration self rd).1.1 = cfg self
  /\ measurements_to_ignore self - 1
     <= measurements_to_ignore (run_iteration self rd).1.1
     <= measurements_to_ignore self
  /\ (forall t p, MqttPublish t p ∈ (run_iteration self rd).1.2 ->
        t = mqtt_topic (cfg self) /\ dom p = names /\ complete p)
  /\ (count is_close (run_iteration self rd).1.2 <= 1)%nat
  /\ ((run_iteration self rd).2 <> Return ->
      count is_close (run_iteration self rd).1.2 = 0%nat).
Proof.
  intros Hwf.
  assert (Hstop : forall ev, Forall is_log ev \/ ev = [Log ERROR MsgReadError; HidClose] ->
            let res := (self, ev, Return) in
            well_formed res.1.1 /\ cfg res.1.1 = cfg self
            /\ measurements_to_ignore self - 1 <= measurements_to_ignore res.1.1
               <= measurements_to_ignore self
            /\ (forall t p, MqttPublish t p ∈ res.1.2 ->
                  t = mqtt_topic (cfg self) /\ dom p = names /\ complete p)
            /\ (count is_close res.1.2 <= 1)%nat
            /\ (res.2 <> Return -> count is_close res.1.2 = 0%nat)).
  { intros ev Hev. cbn [fst snd]. split; [exact Hwf|]. split; [reflexivity|].
    split; [lia|]. split; [|split; [|done]].
    - intros t p Hp. destruct Hev as [Hlog| ->].
      + rewrite Forall_forall in Hlog. by destruct (Hlog _ Hp) as (? & ? & ?).
      + rewrite !elem_of_cons in Hp.
        destruct Hp as [Hp|[Hp|Hp]]; try discriminate Hp. inversion Hp.
    - destruct Hev as [Hlog| ->];
        [|by replace (count is_close _) with 1%nat by reflexivity].
      rewrite count_close_absent; [lia|]. intros Hp.
      rewrite Forall_forall in Hlog. by destruct (Hlog _ Hp) as (? & ? & ?). }
  assert (Hpass : forall ev0 res, Forall is_log ev0 -> pass_facts self ev0 res ->
            well_formed res.1.1 /\ cfg res.1.1 = cfg self
            /\ measurements_to_ignore self - 1 <= measurements_to_ignore res.1.1
               <= measurements_to_ignore self
            /\ (forall t p, MqttPublish t p ∈ res.1.2 ->
                  t = mqtt_topic (cfg self) /\ dom p = names /\ complete p)
            /\ (count is_close res.1.2 <= 1)%nat
            /\ (res.2 <> Return -> count is_close res.1.2 = 0%nat)).
  { intros ev0 res Hlog (ev2 & Hev & Hwf' & Hcfg & Hm & Hpub & Hclose & Hret).
    rewrite Forall_forall in Hlog.
    split; [exact Hwf'|]. split; [exact Hcfg|]. split; [exact Hm|].
    assert (Hc : count is_close res.1.2 = 0%nat).
    { rewrite Hev. apply count_close_absent. rewrite elem_of_app.
      intros [Hp|Hp]; [|by apply Hclose].
      by destruct (Hlog _ Hp) as (? & ? & ?). }
    split; [|split; [lia | done]].
    intros t p Hp. rewrite Hev, elem_of_app in Hp.
    destruct Hp as [Hp|Hp]; [|by apply Hpub].
    by destruct (Hlog _ Hp) as (? & ? & ?). }
  destruct rd as [|r].
  - apply Hstop. left. repeat constructor. by eexists _, _.
  - destruct r as [|a r]; [apply Hstop; by right|].
    unfold run_iteration.
    destruct (PyList.get (a :: r) 4) as [r4|].
    + destruct (negb _).
      * destruct (Decrypt.decrypt KEY (a :: r)) as [r'|].
        -- apply (Hpass [Log DEBUG MsgEncrypted]);
             [repeat constructor; by eexists _, _
             | by apply process_frame_facts].
        -- apply (Hpass [Log DEBUG MsgEncrypted]);
             [repeat constructor; by eexists _, _|].
           rewrite <- (app_nil_r [Log DEBUG MsgEncrypted]) at 2.
           by apply pass_facts_stop.
      * apply (Hpass []); [constructor | by apply process_frame_facts].
    + apply (Hpass []); [constructor|].
      by apply (pass_facts_stop self [] []).
Qed.

(** The same facts of the whole loop, on any sequence of reads. *)
Lemma run_loop_facts (reads : list read_result) (self : ZyTemp) :
  well_formed self ->
  well_formed (run_loop self reads).1.1
  /\ cfg (run_loop self reads).1.1 = cfg self
  /\ measurements_to_ignore (run_loop self reads).1.1
     <= measurements_to_ignore self
  /\ (forall t p, MqttPublish t p ∈ (run_loop self reads).1.2 ->
        t = mqtt_topic (cfg self) /\ dom p = names /\ complete p)
  /\ (count is_close (run_loop self reads).1.2 <= 1)%nat
  /\ ((run_loop self reads).2 <> Returned ->
      count is_close (run_loop self reads).1.2 = 0%nat).
Proof.
  revert self. induction reads as [|rd reads IH]; intros self Hwf.
  - cbn [run_loop fst snd]. split; [exact Hwf|]. split; [reflexivity|].
    split; [lia|]. split; [intros t p Hp; inversion Hp|].
    change (count is_close []) with 0%nat. split; [lia | done].
  - pose proof (run_iteration_facts self rd Hwf) as Hit.
    cbn [run_loop].
    destruct (run_iteration self rd) as [[self1 ev1] c]. cbn [fst snd] in Hit.
    destruct Hit as (Hwf1 & Hcfg1 & Hm1 & Hpub1 & Hc1 & Hnc1).
    destruct c as [| |e].
    + specialize (IH self1 Hwf1).
      destruct (run_loop self1 reads) as [[self2 ev2] st]. cbn [fst snd] in *.
      destruct IH as (Hwf2 & Hcfg2 & Hm2 & Hpub2 & Hc2 & Hnc2).
      specialize (Hnc1 ltac:(discriminate)).
      split; [exact Hwf2|]. split; [congruence|]. split; [lia|].
      split; [|rewrite count_app, Hnc1; split; [lia | exact Hnc2]].
      intros t p Hp. apply elem_of_app in Hp as [Hp|Hp]; [by apply Hpub1|].
      rewrite <- Hcfg1. by apply Hpub2.
    + cbn [fst snd]. split; [exact Hwf1|]. split; [exact Hcfg1|].
      split; [lia|]. split; [exact Hpub1|]. split; [exact Hc1 | done].
    + cbn [fst snd]. split; [exact Hwf1|]. split; [exact Hcfg1|].
      split; [lia|]. split; [exact Hpub1|]. split; [exact Hc1|].
      intros _. by apply Hnc1.
Qed.

(** X7: whatever the reads give (frames, short reads, errors), [run] keeps
    the configuration, keeps exactly the two measurement names in the cache,
    and never raises the counter or takes it below 0. *)
Theorem run_keeps_session_object (self : ZyTemp) (reads : list read_result) :
  well_formed self ->
  cfg (run self reads).1.1 = cfg self
  /\ dom (values (run self reads).1.1) = names
  /\ 0 <= measurements_to_ignore (run self reads).1.1
     <= measurements_to_ignore self.
Proof.
  intros Hwf. unfold run.
  destruct (run_loop_facts reads self Hwf) as ([H0 Hdom] & Hcfg & Hm & _).
  destruct (run_loop self reads) as [[self' ev] st]. cbn [fst snd] in *.
  split; [exact Hcfg|]. split; [exact Hdom | lia].
Qed.

Lemma run_keeps_session_object_witness :
  dom (values (run Sample.fresh
                 [ReadData Sample.co2; ReadData [1; 2; 3]; ReadOSError]).1.1)
  = names.
Proof.
  destruct (run_keeps_session_object Sample.fresh
              [ReadData Sample.co2; ReadData [1; 2; 3]; ReadOSError]
              (init_well_formed Sample.config)) as (_ & H & _).
  exact H.
Defined.

(** X8: whatever the reads give, every snapshot the loop hands to
    [self.m.publish] goes to the configured topic, holds exactly the two
    measurement names and has no [None] entry. *)
Theorem run_publishes_complete_snapshots (self : ZyTemp)
    (reads : list read_result) (t : string) (p : gmap string pyval) :
  well_formed self ->
  MqttPublish t p ∈ (run self reads).1.2 ->
  t = mqtt_topic (cfg self) /\ dom p = names /\ complete p.
Proof.
  intros Hwf Hp. unfold run in Hp.
  destruct (run_loop_facts reads self Hwf) as (_ & _ & _ & Hpub & _).
  destruct (run_loop self reads) as [[self' ev] st]. cbn [fst snd] in *.
  apply elem_of_app in Hp as [Hp|Hp]; [|by apply Hpub].
  unfold discovery in Hp. destruct (_ =? _)%nat; [inversion Hp|].
  rewrite elem_of_app, list_elem_of_singleton, list_elem_of_fmap in Hp.
  destruct Hp as [(e & Hp & _)|Hp]; discriminate Hp.
Qed.

Lemma run_publishes_complete_snapshots_witness :
  complete (<["CO2"%string := PyInt 600]>
              (<["Temperature"%string := temperature_conversion 0x1194]>
                 (values Sample.fresh))).
Proof.
  refine (proj2 (proj2
    (run_publishes_complete_snapshots Sample_settled
       [ReadData Sample.temperature; ReadData Sample.co2]
       "sensors/co2" _ _ _))).
  - split; [cbn; lia | apply (init_well_formed Sample.config)].
  - apply list_elem_of_lookup. exists 6%nat. vm_compute. reflexivity.
Defined.

(** X9: whatever the reads give, [run] calls [self.h.close()] at most once,
    and not at all unless it returns: never while the loop goes on and never
    on the way out by an exception. *)
Theorem run_closes_at_most_once (self : ZyTemp) (reads : list read_result) :
  well_formed self ->
  (count is_close (run self reads).1.2 <= 1)%nat
  /\ ((run self reads).2 <> Returned ->
      count is_close (run self reads).1.2 = 0%nat).
Proof.
  intros Hwf. unfold run.
  destruct (run_loop_facts reads self Hwf) as (_ & _ & _ & _ & Hc & Hnc).
  destruct (run_loop self reads) as [[self' ev] st]. cbn [fst snd] in *.
  rewrite count_app, discovery_no_close. split; [lia | exact Hnc].
Qed.

Lemma run_closes_at_most_once_witness :
  count is_close
    (run Sample.fresh [ReadData Sample.co2; ReadData [1; 2; 3]; ReadData []]).1.2
  = 0%nat.
Proof.
  apply (run_closes_at_most_once Sample.fresh
           [ReadData Sample.co2; ReadData [1; 2; 3]; ReadData []]
           (init_well_formed Sample.config)).
  discriminate.
Defined.

(** ** More on the snapshot cache *)

(** X10: [update] raises [KeyError] exactly on a name the cache does not
    hold. When it returns, the cache holds under that name the new value or
    a stored value equal to it, every other entry is as before, and so are
    the configuration and the counter. *)
Theorem update_lookup (self : ZyTemp) (key : string) (value : pyval) :
  (update self key value = None <-> key ∉ dom (values self))
  /\ (forall self' ev,
        update self key value = Some (self', ev) ->
        (exists stored,
           values self' !! key = Some stored
           /\ (stored = value \/ py_eq stored value = true))
        /\ (forall k, k <> key -> values self' !! k = values self !! k)
        /\ dom (values self') = dom (values self)
        /\ cfg self' = cfg self
        /\ measurements_to_ignore self' = measurements_to_ignore self).
Proof.
  split.
  - rewrite not_elem_of_dom. unfold update.
    destruct (values self !! key) as [old|] eqn:E; [|done].
    split; [|discriminate].
    destruct (py_eq old value); [discriminate|].
    by destruct (any_none _).
  - intros self' ev Hup.
    destruct (values self !! key) as [old|] eqn:E;
      [|unfold update in Hup; rewrite E in Hup; discriminate Hup].
    rewrite (update_present self key value old E) in Hup.
    destruct (py_eq old value) eqn:Heq.
    + injection Hup as <- <-. split; [exists old; eauto|]. by repeat split.
    + cbn zeta in Hup. injection Hup as <- _.
      cbn [values set_values cfg measurements_to_ignore].
      split; [exists value; split; [apply lookup_insert_eq | by left]|].
      split; [intros k Hk; by apply lookup_insert_ne|].
      split; [apply dom_insert_present; by rewrite E | done].
Qed.

Lemma update_again (self self' : ZyTemp) (key : string) (value : pyval)
    (ev : list event) :
  py_eq value value = true ->
  update self key value = Some (self', ev) ->
  update self' key value = Some (self', []).
Proof.
  intros Hrefl Hup.
  destruct (values self !! key) as [old|] eqn:E;
    [|unfold update in Hup; rewrite E in Hup; discriminate Hup].
  rewrite (update_present self key value old E) in Hup.
  destruct (py_eq old value) eqn:Heq.
  - injection Hup as <- <-.
    by rewrite (update_present self key value old E), Heq.
  - cbn zeta in Hup. injection Hup as <- _.
    rewrite (update_present _ key value value); [by rewrite Hrefl|].
    apply lookup_insert_eq.
Qed.

(** X11: a second [update] with the same name and the same value, when the
    value equals itself (any value but a NaN), stores nothing and publishes
    nothing, whatever the first one did. *)
Theorem update_twice (self self' : ZyTemp) (key : string) (value : pyval)
    (ev : list event) :
  py_eq value value = true ->
  update self key value = Some (self', ev) ->
  update self' key value = Some (self', []).
Proof. apply update_again. Qed.

Lemma update_twice_witness :
  exists self',
    update Sample_settled "CO2" (PyInt 600) = Some (self', [])
    /\ update self' "CO2" (PyInt 600) = Some (self', []).
Proof.
  eexists. split; [reflexivity|].
  eapply (update_twice Sample_settled); reflexivity.
Defined.

(** A NaN is the one value that does not equal itself: it would be stored
    and, on a complete cache, published at every [update]. *)
Lemma py_eq_nan : py_eq (PyFloat nan) (PyFloat nan) = false.
Proof. reflexivity. Qed.

(** Every Temperature reading of a 16-bit value equals itself. *)
Lemma temperature_reading_eq_self (hi lo : Z) :
  is_byte hi -> is_byte lo ->
  py_eq (temperature_conversion (Z.lor (Z.shiftl hi 8) lo))
        (temperature_conversion (Z.lor (Z.shiftl hi 8) lo)) = true.
Proof.
  apply (for_all_bytes2_spec
           (fun hi lo =>
              py_eq (temperature_conversion (Z.lor (Z.shiftl hi 8) lo))
                    (temperature_conversion (Z.lor (Z.shiftl hi 8) lo)))).
  vm_compute. reflexivity.
Qed.

Lemma candidate_is_block (raw : list Z) :
  is_block raw -> is_block (FrameSpec.candidate raw).
Proof.
  intros H. unfold FrameSpec.candidate.
  destruct (_ =? _); [exact H | apply transform_is_block].
Qed.

Lemma reading_eq_self (frame : list Z) (k : FrameSpec.kind) :
  is_block frame ->
  let reading :=
    FrameSpec.convert k
      (Z.lor (Z.shiftl (TransformSpec.at_ frame 1) 8) (TransformSpec.at_ frame 2)) in
  py_eq reading reading = true.
Proof.
  intros Hb. block_inv Hb.
  unfold TransformSpec.at_. cbn [lookup list_lookup default id].
  destruct k; [by apply temperature_reading_eq_self | apply Z.eqb_refl].
Qed.

(** ** The loop after the calibration window *)

Lemma iteration_on_frame_decoded (self : ZyTemp) (raw : list Z) (k : FrameSpec.kind) :
  FrameSpec.checksum_holds (FrameSpec.candidate raw) = true ->
  FrameSpec.kind_of_tag (TransformSpec.at_ (FrameSpec.candidate raw) 0) = Some k ->
  iteration_on_frame self raw
  = gate self (FrameSpec.transform_log raw)
         (FrameSpec.kind_name k) (FrameSpec.kind_unit k)
         (FrameSpec.convert k
            (Z.lor (Z.shiftl (TransformSpec.at_ (FrameSpec.candidate raw) 1) 8)
                   (TransformSpec.at_ (FrameSpec.candidate raw) 2))).
Proof.
  intros Hc Hk. unfold iteration_on_frame, FrameSpec.validate.
  by rewrite Hc, Hk.
Qed.

Lemma iteration_on_frame_dropped (self : ZyTemp) (raw : list Z) :
  FrameSpec.is_decoded raw = false ->
  exists ev,
    iteration_on_frame self raw = (self, ev, Continue)
    /\ count is_publish ev = 0%nat.
Proof.
  destruct (transform_log_quiet raw) as (_ & Hq & _).
  unfold FrameSpec.is_decoded, FrameSpec.decoded_kind, iteration_on_frame.
  destruct (FrameSpec.validate raw) as [frame|].
  - destruct (FrameSpec.kind_of_tag _); [discriminate|]. intros _.
    eexists. split; [reflexivity|]. by rewrite count_app, Hq.
  - intros _. eexists. split; [reflexivity|]. by rewrite count_app, Hq.
Qed.

(** X12: with the counter at 0, feeding the loop the same 8-byte frame twice
    in a row makes the second pass publish nothing and leave the session
    object as the first pass left it. *)
Theorem repeated_frame_not_republished (self : ZyTemp) (raw : list Z) :
  is_block raw -> well_formed self -> measurements_to_ignore self = 0 ->
  exists self1 ev1 ev2,
    run_iteration self (ReadData raw) = (self1, ev1, Continue)
    /\ run_iteration self1 (ReadData raw) = (self1, ev2, Continue)
    /\ count is_publish ev2 = 0%nat.
Proof.
  intros Hb Hwf H0.
  assert (Hlen : length raw = 8%nat) by apply Hb.
  destruct (transform_log_quiet raw) as (_ & Hq & _).
  destruct (FrameSpec.is_decoded raw) eqn:Hdec.
  - unfold FrameSpec.is_decoded, FrameSpec.decoded_kind, FrameSpec.validate in Hdec.
    destruct (FrameSpec.checksum_holds _) eqn:Hc; [|discriminate Hdec].
    destruct (FrameSpec.kind_of_tag _) as [k|] eqn:Hk; [|discriminate Hdec].
    set (reading := FrameSpec.convert k
           (Z.lor (Z.shiftl (TransformSpec.at_ (FrameSpec.candidate raw) 1) 8)
                  (TransformSpec.at_ (FrameSpec.candidate raw) 2))).
    destruct (update_facts self (FrameSpec.kind_name k) reading)
      as (self1 & evu & Hup & _ & Hm & _).
    { destruct Hwf as [_ ->]. apply kind_name_in_names. }
    assert (H1 : measurements_to_ignore self1 = 0) by congruence.
    eexists self1, _, _.
    rewrite !(run_iteration_frame _ raw Hlen).
    rewrite !(iteration_on_frame_decoded _ raw k Hc Hk). fold reading.
    rewrite (gate_admitting self _ _ _ _ H0), Hup.
    rewrite (gate_admitting self1 _ _ _ _ H1).
    rewrite (update_again self self1 _ reading evu);
      [|by apply reading_eq_self, candidate_is_block | exact Hup].
    split; [reflexivity|]. split; [reflexivity|].
    by rewrite !count_app, Hq.
  - destruct (iteration_on_frame_dropped self raw Hdec) as (ev & Hit & Hp).
    exists self, ev, ev. rewrite (run_iteration_frame self raw Hlen).
    by rewrite Hit.
Qed.

Lemma repeated_frame_not_republished_witness :
  exists self1 ev1 ev2,
    run_iteration Sample_settled (ReadData Sample.temperature_encrypted)
    = (self1, ev1, Continue)
    /\ run_iteration self1 (ReadData Sample.temperature_encrypted)
       = (self1, ev2, Continue)
    /\ count is_publish ev2 = 0%nat.
Proof.
  apply repeated_frame_not_republished.
  - split; [reflexivity | repeat constructor; unfold is_byte; lia].
  - split; [cbn; lia | apply (init_well_formed Sample.config)].
  - reflexivity.
Defined.

(** X13: with the counter at 0 and nothing in the cache, a frame that
    decodes to a Temperature reading followed by one that decodes to a CO2
    reading makes the loop publish exactly once, and what it publishes is
    the snapshot of both readings. *)
Theorem temperature_then_co2_publishes_once (self : ZyTemp)
    (raw1 raw2 f1 f2 : list Z) :
  length raw1 = 8%nat -> length raw2 = 8%nat ->
  well_formed self -> measurements_to_ignore self = 0 ->
  values self !! "Temperature"%string = Some PyNone ->
  values self !! "CO2"%string = Some PyNone ->
  FrameSpec.validate raw1 = FrameSpec.Accepted f1 ->
  FrameSpec.kind_of_tag (TransformSpec.at_ f1 0) = Some FrameSpec.Temperature ->
  FrameSpec.validate raw2 = FrameSpec.Accepted f2 ->
  FrameSpec.kind_of_tag (TransformSpec.at_ f2 0) = Some FrameSpec.CO2 ->
  let t := temperature_conversion
             (Z.lor (Z.shiftl (TransformSpec.at_ f1 1) 8) (TransformSpec.at_ f1 2)) in
  let c := co2_conversion
             (Z.lor (Z.shiftl (TransformSpec.at_ f2 1) 8) (TransformSpec.at_ f2 2)) in
  let snapshot :=
    <["CO2"%string := c]> (<["Temperature"%string := t]> (values self)) in
  exists self' ev,
    run_loop self [ReadData raw1; ReadData raw2] = (self', ev, Blocked)
    /\ values self' = snapshot
    /\ count is_publish ev = 1%nat
    /\ MqttPublish (mqtt_topic (cfg self)) snapshot ∈ ev
    /\ snapshot !! "Temperature"%string = Some t
    /\ snapshot !! "CO2"%string = Some c.
Proof.
  intros Hl1 Hl2 Hwf H0 HT HC Hv1 Hk1 Hv2 Hk2 t c snapshot.
  destruct (transform_log_quiet raw1) as (_ & Hq1 & _).
  destruct (transform_log_quiet raw2) as (_ & Hq2 & _).
  set (d1 := <["Temperature"%string := t]> (values self)).
  set (self1 := set_values self d1).
  assert (Hu1 : update self "Temperature" t = Some (self1, [])).
  { rewrite (update_present self _ t PyNone HT). cbn [py_eq t]. cbn zeta.
    fold d1. fold self1.
    assert (Hn : any_none d1 = true).
    { apply any_none_true. exists "CO2"%string. subst d1.
      by rewrite lookup_insert_ne. }
    by rewrite Hn. }
  assert (HC1 : values self1 !! "CO2"%string = Some PyNone).
  { subst self1 d1. cbn [values set_values]. by rewrite lookup_insert_ne. }
  assert (Hcomp : complete snapshot).
  { intros k v Hk. subst snapshot.
    destruct (decide (k = "CO2"%string)) as [->|Hne1].
    { rewrite lookup_insert_eq in Hk. injection Hk as <-. discriminate. }
    rewrite lookup_insert_ne in Hk by done.
    destruct (decide (k = "Temperature"%string)) as [->|Hne2].
    { rewrite lookup_insert_eq in Hk. injection Hk as <-. discriminate. }
    rewrite lookup_insert_ne in Hk by done.
    assert (Hin : k ∈ dom (values self)) by (apply elem_of_dom; eauto).
    destruct Hwf as [_ Hdom]. rewrite Hdom in Hin. unfold names in Hin.
    rewrite elem_of_union, !elem_of_singleton in Hin. by destruct Hin. }
  assert (Hu2 : update self1 "CO2" c
                = Some (set_values self1 snapshot,
                        [MqttPublish (mqtt_topic (cfg self)) snapshot])).
  { rewrite (update_present self1 _ c PyNone HC1). cbn [py_eq c co2_conversion].
    cbn zeta. change (values self1) with d1.
    change (<["CO2"%string := c]> d1) with snapshot.
    apply any_none_false in Hcomp. by rewrite Hcomp. }
  assert (Hit1 : exists ev1,
             run_iteration self (ReadData raw1) = (self1, ev1, Continue)
             /\ count is_publish ev1 = 0%nat).
  { rewrite (run_iteration_frame self raw1 Hl1).
    unfold iteration_on_frame. rewrite Hv1, Hk1.
    change (FrameSpec.convert FrameSpec.Temperature
              (Z.lor (Z.shiftl (TransformSpec.at_ f1 1) 8) (TransformSpec.at_ f1 2)))
      with t.
    rewrite (gate_admitting self _ _ _ _ H0).
    change (FrameSpec.kind_name FrameSpec.Temperature) with "Temperature"%string.
    rewrite Hu1. eexists. split; [reflexivity|].
    by rewrite !count_app, Hq1. }
  assert (Hit2 : exists ev2,
             run_iteration self1 (ReadData raw2)
             = (set_values self1 snapshot, ev2, Continue)
             /\ count is_publish ev2 = 1%nat
             /\ MqttPublish (mqtt_topic (cfg self)) snapshot ∈ ev2).
  { rewrite (run_iteration_frame self1 raw2 Hl2).
    unfold iteration_on_frame. rewrite Hv2, Hk2.
    change (FrameSpec.convert FrameSpec.CO2
              (Z.lor (Z.shiftl (TransformSpec.at_ f2 1) 8) (TransformSpec.at_ f2 2)))
      with c.
    rewrite (gate_admitting self1 _ _ _ _ H0).
    change (FrameSpec.kind_name FrameSpec.CO2) with "CO2"%string.
    rewrite Hu2. eexists. split; [reflexivity|].
    split; [by rewrite !count_app, Hq2|].
    rewrite !elem_of_app, !list_elem_of_singleton. tauto. }
  destruct Hit1 as (ev1 & Hit1 & Hc1).
  destruct Hit2 as (ev2 & Hit2 & Hc2 & Hin2).
  exists (set_values self1 snapshot), (ev1 ++ ev2 ++ []).
  split; [cbn [run_loop]; by rewrite Hit1, Hit2|].
  split; [reflexivity|].
  split; [by rewrite !count_app, Hc1, Hc2|].
  split; [rewrite !elem_of_app; tauto|].
  subst snapshot. split.
  - rewrite lookup_insert_ne by done. apply lookup_insert_eq.
  - apply lookup_insert_eq.
Qed.

Lemma temperature_then_co2_publishes_once_witness :
  exists self' ev,
    run_loop Sample_settled
      [ReadData Sample.temperature_encrypted; ReadData Sample.co2]
    = (self', ev, Blocked)
    /\ count is_publish ev = 1%nat
    /\ values self' !! "CO2"%string = Some (PyInt 600).
Proof.
  destruct (temperature_then_co2_publishes_once Sample_settled
              Sample.temperature_encrypted Sample.co2
              Sample.temperature Sample.co2
              eq_refl eq_refl
              (conj (Z.le_refl 0) (proj2 (init_well_formed Sample.config)))
              eq_refl eq_refl eq_refl eq_refl eq_refl eq_refl eq_refl)
    as (self' & ev & Hloop & Hval & Hcount & _ & _ & Hc).
  exists self', ev. split; [exact Hloop|]. split; [exact Hcount|].
  rewrite Hval. exact Hc.
Defined.

(** ** [get_hiddev] *)

Section GetHiddevFacts.
Import HidDev.

Variable decode : string -> option string.

Lemma last_cons_default (a d : device_info) (l : list device_info) :
  List.last (a :: l) d = List.last l a.
Proof.
  revert a d. induction l as [|b l IH]; intros a d; [reflexivity|].
  change (List.last (a :: b :: l) d) with (List.last (b :: l) d).
  by rewrite !IH.
Qed.

(** What the loop over the sensors leaves when every path decodes: [p] holds
    the paths in order, and [path] is the last of them. *)
Lemma scan_result (hid_sensors : list device_info) (p : list string)
    (path_var : option string) (ev ev' : list call)
    (p' : list string) (path_var' : option string) :
  scan decode hid_sensors p path_var ev = (ev', Some (p', path_var')) ->
  p' = p ++ map path hid_sensors
  /\ path_var' = match hid_sensors with
                 | [] => path_var
                 | s :: rest => Some (path (List.last rest s))
                 end
  /\ exists found, ev' = ev ++ found /\ length found = length hid_sensors.
Proof.
  revert p path_var ev. induction hid_sensors as [|s rest IH]; intros p pv ev.
  - cbn [scan]. intros [= <- <- <-]. rewrite !app_nil_r.
    split; [reflexivity|]. split; [reflexivity|].
    exists []. by rewrite app_nil_r.
  - cbn [scan]. destruct (decode (path s)) as [path_str|]; [|discriminate].
    intros Hscan.
    destruct (IH _ _ _ Hscan) as (Hp & Hpv & found & Hev & Hlen).
    split; [by rewrite Hp, <- app_assoc|]. split.
    + rewrite Hpv. destruct rest as [|s' rest']; [reflexivity|].
      by rewrite last_cons_default.
    + eexists (_ :: found). rewrite Hev, <- app_assoc.
      split; [reflexivity|]. cbn. by rewrite Hlen.
Qed.


(** X14: [get_hiddev] returns [None] exactly when no enumerated device
    carries both the manufacturer and the product string of the sensor; it
    then logs that no device was found and opens nothing. It never gets to
    [h.open_path(path)] with [path] unset. *)
Theorem get_hiddev_none (enumerated : list device_info) :
  (List.filter is_sensor enumerated = [] ->
   get_hiddev decode enumerated = ([LogNoDevice], ReturnNone))
  /\ (forall ev, get_hiddev decode enumerated = (ev, ReturnNone) ->
        List.filter is_sensor enumerated = [])
  /\ (get_hiddev decode enumerated).2 <> RaiseNameError.
Proof.
  unfold get_hiddev. split; [by intros ->|].
  destruct (scan decode (List.filter is_sensor enumerated) [] None [])
    as [ev' [[p' pv']|]] eqn:Hscan; [|split; [intros ev [= _] | discriminate]].
  apply scan_result in Hscan as (-> & -> & _).
  destruct (List.filter is_sensor enumerated) as [|s rest];
    [split; [reflexivity | discriminate]|].
  cbn [app map]. destruct (decode (path s)); split; try discriminate.
  all: intros ev [= _].
Qed.


End GetHiddevFacts.


(** ** The Temperature conversion on 16-bit values *)

Lemma exact_temperature_inject (v : Z) :
  (exact_temperature v == inject_Z v * (1 # 16) - (27315 # 100))%Q.
Proof. unfold exact_temperature. by rewrite (Qmake_Qdiv v 16). Qed.

(** X16: for every 16-bit raw value the Temperature reading is a float
    within [2^-42] of the rational [v/16 - 273.15], so between -273.16 and
    3822.8. *)
Theorem temperature_reading_accuracy (v : Z) :
  0 <= v < 65536 ->
  exists f,
    temperature_conversion v = PyFloat f
    /\ (Qabs (float_to_Q f - exact_temperature v) <= 1 # 2 ^ 42)%Q
    /\ (- (27316 # 100) <= float_to_Q f <= 38228 # 10)%Q.
Proof.
  intros Hv.
  destruct (temperature_conversion_accurate v Hv) as (f & Hf & Hacc).
  exists f. split; [exact Hf|]. split; [exact Hacc|].
  apply Qabs_Qle_condition in Hacc as [Hlo Hhi].
  rewrite exact_temperature_inject in Hlo, Hhi.
  assert (H0 : (inject_Z 0 <= inject_Z v)%Q) by (rewrite <- Zle_Qle; lia).
  assert (H1 : (inject_Z v <= inject_Z 65535)%Q) by (rewrite <- Zle_Qle; lia).
  change (inject_Z 0) with 0%Q in H0. change (inject_Z 65535) with 65535%Q in H1.
  change (1 # 2 ^ 42)%Q with (1 # 4398046511104)%Q in Hlo, Hhi.
  split; lra.
Qed.

Lemma temperature_reading_accuracy_witness :
  exists f,
    temperature_conversion 0x1194 = PyFloat f
    /\ (Qabs (float_to_Q f - exact_temperature 0x1194) <= 1 # 2 ^ 42)%Q
    /\ (- (27316 # 100) <= float_to_Q f <= 38228 # 10)%Q.
Proof. apply temperature_reading_accuracy. lia. Defined.

(** X17: two different 16-bit raw values never give the same Temperature
    reading: rounding to binary64 merges no two of them. *)
Theorem temperature_conversion_injective (v w : Z) :
  0 <= v < 65536 -> 0 <= w < 65536 ->
  temperature_conversion v = temperature_conversion w -> v = w.
Proof.
  intros Hv Hw Heq.
  destruct (temperature_conversion_accurate v Hv) as (f & Hf & Hfv).
  destruct (temperature_conversion_accurate w Hw) as (g & Hg & Hgw).
  assert (f = g) as <- by congruence.
  apply Qabs_Qle_condition in Hfv as [Hv1 Hv2].
  apply Qabs_Qle_condition in Hgw as [Hw1 Hw2].
  rewrite exact_temperature_inject in Hv1, Hv2, Hw1, Hw2.
  change (1 # 2 ^ 42)%Q with (1 # 4398046511104)%Q in Hv1, Hv2, Hw1, Hw2.
  destruct (Z.lt_trichotomy v w) as [Hlt|[Heq'|Hgt]]; [|exact Heq'|]; exfalso.
  - assert (H : (inject_Z (v + 1) <= inject_Z w)%Q) by (rewrite <- Zle_Qle; lia).
    rewrite inject_Z_plus in H. change (inject_Z 1) with 1%Q in H. lra.
  - assert (H : (inject_Z (w + 1) <= inject_Z v)%Q) by (rewrite <- Zle_Qle; lia).
    rewrite inject_Z_plus in H. change (inject_Z 1) with 1%Q in H. lra.
Qed.

Lemma temperature_conversion_injective_witness : 0x1194 = 4500.
Proof.
  apply temperature_conversion_injective; [lia | lia | reflexivity].
Defined.

(** ** The discovery documents *)

Lemma string_app_inv_head (s a b : string) : s +:+ a = s +:+ b -> a = b.
Proof.
  induction s as [|c s IH]; [done|]. intros [= H]. by apply IH.
Qed.

Lemma string_length_0 (s : string) : (String.length s =? 0)%nat = true <-> s = ""%string.
Proof.
  destruct s; cbn; [done|]. split; discriminate.
Qed.

Section DiscoveryFacts.

Variable basename : string -> string.
Variable join : list string -> string.

(** X18: with an empty discovery prefix [discovery] makes no call at all.
    Otherwise it publishes, retained, one document for Temperature and one
    for CO2 and then calls [self.m.run] once; the two documents have
    different unique ids whatever the configuration, the same device
    identifiers, the snapshot topic as their state topic, and value
    templates that name Temperature and CO2, the keys of the snapshots. *)
Theorem discovery_documents (self : ZyTemp) :
  (discovery_prefix (cfg self) = ""%string ->
   Discovery.discovery basename join self = [])
  /\ (discovery_prefix (cfg self) <> ""%string ->
      exists t1 t2 d1 d2,
        Discovery.discovery basename join self
        = [Discovery.Publish t1 d1 true; Discovery.Publish t2 d2 true;
           Discovery.Run]
        /\ Discovery.unique_id d1 <> Discovery.unique_id d2
        /\ Discovery.device_identifiers d1 = Discovery.device_identifiers d2
        /\ Discovery.state_topic d1 = mqtt_topic (cfg self)
        /\ Discovery.state_topic d2 = mqtt_topic (cfg self)
        /\ Discovery.value_template d1 = "{{ value_json.Temperature }}"%string
        /\ Discovery.value_template d2 = "{{ value_json.CO2 }}"%string).
Proof.
  unfold Discovery.discovery. split.
  - by intros ->.
  - intros Hne.
    destruct (String.length (discovery_prefix (cfg self)) =? 0)%nat eqn:E.
    { by apply string_length_0 in E. }
    eexists _, _, _, _. split; [reflexivity|].
    split; [|by repeat split].
    cbn [Discovery.unique_id Discovery.content_of MEASUREMENTS snd name].
    intros Heq. apply string_app_inv_head in Heq. discriminate Heq.
Qed.

End DiscoveryFacts.
